(** * The data-acquisition client of the facility booker

    A shallow embedding of [src/api/ApiService.ts] (the class the Electron
    main process instantiates) and of the parts of its older sibling
    [src/api/ApiService.js] that behave differently, followed by the
    properties of the client that the design document states.

    The client talks to four things outside itself: a headless browser
    (puppeteer), the file system, the HTTP library (axios) and the clock.
    Their answers are gathered in a [World]; an operation of the client is
    a function of the world and of the client's fields, and it returns a
    completion (a value, or a thrown value when the promise rejects)
    together with the new fields and the calls it made.  What the client
    writes to the console is left out. *)

From Stdlib Require Import ZArith DecimalString.
From stdpp Require Import base list strings sorting.

Local Set Warnings "-register-all".
Local Open Scope string_scope.
Local Open Scope list_scope.
Local Open Scope Z_scope.

(** ** The fragment of JavaScript the client relies on *)

Module Js.

(** Values, as [JSON.parse] and the object literals of the client build
    them.  An object is its own properties in enumeration order (the order
    of [Object.entries]; for names that are not array indices this is the
    order of creation, hence document order after [JSON.parse]).  An array
    may carry named properties besides its elements: the loader adds one
    when a facility entry happens to be an array.  The numbers that occur
    here are integers (counts, status codes, timestamps).  A string is its
    sequence of code units, one character of the model for each. *)
Inductive value :=
| VUndefined
| VNull
| VBool (b : bool)
| VNum (n : Z)
| VStr (s : string)
| VArr (elems : list value) (named : list (string * value))
| VObj (props : list (string * value)).

(** ToBoolean. *)
Definition truthy (v : value) : bool :=
  match v with
  | VUndefined | VNull => false
  | VBool b => b
  | VNum n => negb (n =? 0)
  | VStr s => negb (String.eqb s "")
  | VArr _ _ | VObj _ => true
  end.

(** [a || b]. *)
Definition or_else (a b : value) : value := if truthy a then a else b.

Section Properties.
Context {A : Type}.

(** [o[k]] restricted to own properties. *)
Fixpoint own (props : list (string * A)) (k : string) : option A :=
  match props with
  | [] => None
  | (k', v) :: rest => if String.eqb k' k then Some v else own rest k
  end.

(** [o[k] = v] on an ordinary object, for a name [k] that is not an array
    index: an existing property keeps its place, a new one goes last. *)
Fixpoint assign (props : list (string * A)) (k : string) (v : A)
  : list (string * A) :=
  match props with
  | [] => [(k, v)]
  | (k', v') :: rest =>
      if String.eqb k' k then (k', v) :: rest
      else (k', v') :: assign rest k v
  end.

Definition keys (props : list (string * A)) : list string := fst <$> props.
End Properties.

(** Number.prototype.toString on an integer, also what a template literal
    does with a number. *)
Definition Number_toString (n : Z) : string :=
  NilZero.string_of_int (Z.to_int n).

(** The index properties of an array or of a string. *)
Definition index_entries (elems : list value) : list (string * value) :=
  imap (fun i x => (Number_toString (Z.of_nat i), x)) elems.

Definition chars (s : string) : list value :=
  (fun c => VStr (String c "")) <$> String.list_ascii_of_string s.

(** What the engine itself raises (all of them TypeErrors).  Their wording
    belongs to the engine and is taken from the world. *)
Inductive engine_error :=
| NullToObject                      (* Object.entries(null) *)
| ReadOfNullish (k : string)        (* null.k *)
| NotIterable                       (* for (... of 5) *)
| NotAFunction (k : string)         (* "abc".forEach(...) *)
| AssignToNullish (k : string)      (* null.k = ... *)
| AssignToPrimitive (k : string).   (* "abc".k = ... in strict code *)

(** What a [throw] or a rejected promise carries. *)
Inductive thrown :=
| ErrorObject (message : string)    (* an instance of Error *)
| TypeError (cause : engine_error)  (* an instance of Error, raised by the engine *)
| NonError (v : value).             (* any other value *)

Inductive completion (A : Type) :=
| Normal (a : A)
| Throw (e : thrown).
Arguments Normal {A} a.
Arguments Throw {A} e.

Definition is_Normal {A} (c : completion A) : bool :=
  match c with Normal _ => true | Throw _ => false end.

(** [Object.entries(v)] and [Object.keys(v)]. *)
Definition Object_entries (v : value) : completion (list (string * value)) :=
  match v with
  | VUndefined | VNull => Throw (TypeError NullToObject)
  | VBool _ | VNum _ => Normal []
  | VStr s => Normal (index_entries (chars s))
  | VArr elems named => Normal (index_entries elems ++ named)
  | VObj props => Normal props
  end.

Definition Object_keys (v : value) : completion (list string) :=
  match Object_entries v with
  | Normal es => Normal (keys es)
  | Throw e => Throw e
  end.

(** [v.k] for a name [k] that no built-in prototype defines and that is
    neither an index nor [length] (the client reads [facilities] and
    [message] this way). *)
Definition get (v : value) (k : string) : completion value :=
  match v with
  | VUndefined | VNull => Throw (TypeError (ReadOfNullish k))
  | VBool _ | VNum _ | VStr _ => Normal VUndefined
  | VArr _ named => Normal (default VUndefined (own named k))
  | VObj props => Normal (default VUndefined (own props k))
  end.

(** [v.k = x] in strict code (class bodies and modules are strict), for a
    name [k] that is neither an index nor [length]. *)
Definition set (v : value) (k : string) (x : value) : completion value :=
  match v with
  | VUndefined | VNull => Throw (TypeError (AssignToNullish k))
  | VBool _ | VNum _ | VStr _ => Throw (TypeError (AssignToPrimitive k))
  | VArr elems named => Normal (VArr elems (assign named k x))
  | VObj props => Normal (VObj (assign props k x))
  end.

(** The elements a [for ... of] loop visits. *)
Definition iterate (v : value) : completion (list value) :=
  match v with
  | VArr elems _ => Normal elems
  | VStr s => Normal (chars s)
  | _ => Throw (TypeError NotIterable)
  end.

(** [o[k]] on a parsed document, for an arbitrary name [k]: an own
    property, a member found on the prototype chain (a built-in function
    or a prototype object: truthy, and without a [facilities] property),
    or nothing.  Which names the prototypes define is the runtime's
    business, [inherited] says it. *)
Inductive member :=
| Own (v : value)
| Inherited
| Absent.

Definition lookup_member (inherited : value -> string -> bool)
    (o : value) (k : string) : completion member :=
  match Object_entries o with
  | Throw _ => Throw (TypeError (ReadOfNullish k))
  | Normal es =>
      let length_of :=
        match o with
        | VStr s => Some (VNum (Z.of_nat (String.length s)))
        | VArr elems _ => Some (VNum (Z.of_nat (length elems)))
        | _ => None
        end in
      Normal
        match own es k with
        | Some v => Own v
        | None =>
            match length_of with
            | Some n => if String.eqb k "length" then Own n
                        else if inherited o k then Inherited else Absent
            | None => if inherited o k then Inherited else Absent
            end
        end
  end.

(** The default [Array.prototype.sort()] on strings: ascending by code
    units.  The order is total and antisymmetric, so every correct sorting
    algorithm returns the same array (see [sort_unique] below). *)
Definition code_unit_le (s t : string) : Prop := String.leb s t = true.

Global Instance code_unit_le_dec s t : Decision (code_unit_le s t).
Proof. unfold code_unit_le. apply _. Defined.

Definition sort (l : list string) : list string := merge_sort code_unit_le l.

(** [parts.join(sep)]. *)
Fixpoint join (sep : string) (parts : list string) : string :=
  match parts with
  | [] => ""
  | [p] => p
  | p :: rest => p +:+ sep +:+ join sep rest
  end.

End Js.
Export Js.

(** ** Completions as a monad *)

Global Instance completion_ret : MRet completion := fun _ a => Normal a.
Global Instance completion_bind : MBind completion := fun _ _ k c =>
  match c with
  | Normal a => k a
  | Throw e => Throw e
  end.

(** A loop whose body may throw: [for (const x of xs) body], threading the
    variables the body updates. *)
Fixpoint for_each {A S : Type} (body : S -> A -> completion S) (s : S)
    (xs : list A) : completion S :=
  match xs with
  | [] => Normal s
  | x :: rest => s' ← body s x; for_each body s' rest
  end.

(** ** The world outside the client *)

Module Cookie.
(** A cookie as [page.cookies()] reports it; the client reads two
    fields. *)
Record t := { name : string; value : string }.
End Cookie.

Record AxiosRequestConfig := {
  method : string;
  url : string;
  params : list (string * string);
  headers : list (string * string);
  timeout : Z
}.

Record AxiosResponse := {
  status : Z;
  statusText : string;
  data : value
}.

Module Puppeteer.
(** How one browser session goes: the completion of each awaited call,
    in the order [refreshCookies] makes them. *)
Record session := {
  launch : completion unit;
  newPage : completion unit;
  setUserAgent : completion unit;
  goto : completion unit;
  cookies : completion (list Cookie.t);
  close : completion unit
}.
End Puppeteer.

(** What reading data/all_facilities.json and parsing it comes to. *)
Inductive catalog_source :=
| Missing (e : thrown)                (* fs.readFile rejects *)
| Unparseable (e : thrown)            (* JSON.parse throws *)
| Document (facilitiesJson : value).  (* JSON.parse returns *)

Record World := {
  browser : Puppeteer.session;
  catalog : catalog_source;
  unlink : completion unit;
  now : Z;                                               (* Date.now() *)
  axios : AxiosRequestConfig -> completion AxiosResponse;
  wording : engine_error -> string;
  inherited : value -> string -> bool
}.

(** The calls the client makes to the outside, in the order made. *)
Inductive call :=
| Launch
| NewPage
| SetUserAgent (ua : string)
| Goto (url waitUntil : string) (timeout : Z)
| Cookies
| Close
| ReadFile (path : string)
| Unlink (path : string)
| Request (config : AxiosRequestConfig).

(** ** The client's fields and the monad of its operations *)

Record ApiService := {
  cookies : list (string * string);
  facilitiesCache : option (list value)
}.

Record machine := {
  this : ApiService;
  calls : list call
}.

Definition M (A : Type) : Type := World -> machine -> completion A * machine.

Global Instance M_ret : MRet M := fun _ a _ m => (Normal a, m).
Global Instance M_bind : MBind M := fun _ _ k c w m =>
  match c w m with
  | (Normal a, m') => k a w m'
  | (Throw e, m') => (Throw e, m')
  end.

Definition throw {A} (e : thrown) : M A := fun _ m => (Throw e, m).

(** A pure step that may throw. *)
Definition lift {A} (c : completion A) : M A := fun _ m => (c, m).

(** [try { body } catch (error) { handler }]. *)
Definition try_catch {A} (body : M A) (handler : thrown -> M A) : M A :=
  fun w m =>
    match body w m with
    | (Normal a, m') => (Normal a, m')
    | (Throw e, m') => handler e w m'
    end.

(** [try { body } finally { finalizer }]: the finalizer runs on every
    path, and when it throws, its exception replaces the body's
    completion. *)
Definition try_finally {A} (body : M A) (finalizer : M unit) : M A :=
  fun w m =>
    let '(r, m') := body w m in
    match finalizer w m' with
    | (Normal _, m'') => (r, m'')
    | (Throw e, m'') => (Throw e, m'')
    end.

(** An awaited call to the outside: it is recorded, the world answers. *)
Definition external {A} (c : call) (answer : World -> completion A) : M A :=
  fun w m =>
    (answer w, {| this := this m; calls := calls m ++ [c] |}).

Definition get_cookies : M (list (string * string)) :=
  fun _ m => (Normal (cookies (this m)), m).

Definition set_cookies (jar : list (string * string)) : M unit :=
  fun _ m =>
    (Normal (),
     {| this := {| cookies := jar;
                  facilitiesCache := facilitiesCache (this m) |};
        calls := calls m |}).

Definition set_facilitiesCache (c : option (list value)) : M unit :=
  fun _ m =>
    (Normal (),
     {| this := {| cookies := cookies (this m); facilitiesCache := c |};
        calls := calls m |}).

(** [error instanceof Error ? error.message : fallback]. *)
Definition message_or (fallback : string) (error : thrown) : M string :=
  fun w m =>
    (Normal match error with
            | ErrorObject message => message
            | TypeError cause => wording w cause
            | NonError _ => fallback
            end, m).

(** ** The client: src/api/ApiService.ts *)

Definition baseUrl : string :=
  "https://anc.ca.apm.activecommunities.com/activemississauga".

(** Paths are relative to the directory of the compiled module. *)
Definition facilitiesPath : string := "../data/all_facilities.json".
Definition facilitiesCacheFile : string := "../data/facilities_cache.json".

Definition userAgent : string :=
  "Mozilla/5.0 (Windows NT 10.0; Win64; x64; rv:142.0) Gecko/20100101 Firefox/142.0".

Definition constructor : ApiService :=
  {| cookies := []; facilitiesCache := None |}.

(** [acc[cookie.name] = cookie.value].  Assigning a string to [__proto__]
    goes to the setter of Object.prototype, which ignores it.  The jar is
    kept in the order of creation; an engine enumerates the names that are
    array indices before the others (see [own_property_order]). *)
Definition store (acc : list (string * string)) (cookie : Cookie.t)
  : list (string * string) :=
  if String.eqb (Cookie.name cookie) "__proto__" then acc
  else assign acc (Cookie.name cookie) (Cookie.value cookie).

(** [cookies.reduce((acc, cookie) => { ...; return acc }, {})]. *)
Definition harvest (cookies : list Cookie.t) : list (string * string) :=
  foldl store [] cookies.

Definition Date_now : M Z := fun w m => (Normal (now w), m).

Definition read_catalog : M value :=
  external (ReadFile facilitiesPath)
    (fun w =>
       match catalog w with
       | Missing e => Throw e
       | Unparseable e => Throw e
       | Document facilitiesJson => Normal facilitiesJson
       end).

Definition refreshCookies : M value :=
  external Launch (fun w => Puppeteer.launch (browser w));;
  try_finally
    (try_catch
       (external NewPage (fun w => Puppeteer.newPage (browser w));;
        external (SetUserAgent userAgent)
          (fun w => Puppeteer.setUserAgent (browser w));;
        external
          (Goto (baseUrl +:+ "/reservation/landing/search") "networkidle2" 30000)
          (fun w => Puppeteer.goto (browser w));;
        cookies ← external Cookies (fun w => Puppeteer.cookies (browser w));
        set_cookies (harvest cookies);;
        jar ← get_cookies;
        mret (VObj [("success", VBool true);
                    ("data", VBool true);
                    ("message",
                     VStr ("Got "
                           +:+ Number_toString (Z.of_nat (length (keys jar)))
                           +:+ " cookies"))]))
       (fun error =>
          message ← message_or "Unknown error" error;
          mret (VObj [("success", VBool false); ("error", VStr message)])))
    (external Close (fun w => Puppeteer.close (browser w))).

Definition getAllFacilities : M value :=
  try_catch
    (facilitiesJson ← read_catalog;
     entries ← lift (Object_entries facilitiesJson);
     facilities ←
       lift (for_each
               (fun facilities '(centerName, centerData) =>
                  listed ← get centerData "facilities";
                  centerFacilities ← iterate (or_else listed (VArr [] []));
                  for_each
                    (fun facilities facility =>
                       facility' ← set facility "center_name" (VStr centerName);
                       mret (facilities ++ [facility']))
                    facilities centerFacilities)
               [] entries);
     set_facilitiesCache (Some facilities);;
     mret (VObj [("success", VBool true); ("data", VArr facilities [])]))
    (fun error =>
       message ← message_or "Failed to load facilities" error;
       mret (VObj [("success", VBool false); ("error", VStr message)])).

Definition getFacilityAvailability (facilityId date : string) : M value :=
  jar ← get_cookies;
  (if bool_decide (length (keys jar) = 0%nat)
   then refreshCookies;; mret ()
   else mret ());;
  let startDate := date in
  let endDate := date in
  let url :=
    baseUrl +:+ "/rest/reservation/resource/availability/daily/" +:+ facilityId in
  ui_random ← Date_now;
  let params :=
    [("start_date", startDate);
     ("end_date", endDate);
     ("customer_id", "0");
     ("company_id", "0");
     ("locale", "en-US");
     ("ui_random", Number_toString ui_random)] in
  let headers :=
    [("User-Agent", userAgent);
     ("Accept", "text/html,application/xhtml+xml,application/xml;q=0.9,*/*;q=0.8");
     ("Accept-Language", "en-CA,en-US;q=0.7,en;q=0.3");
     ("Referer",
      baseUrl +:+ "/reservation/landing/search/detail/" +:+ facilityId)] in
  jar ← get_cookies;
  let headers :=
    if bool_decide (0 < length (keys jar))%nat
    then assign headers "Cookie"
           (join "; " ((fun '(name, value) => name +:+ "=" +:+ value) <$> jar))
    else headers in
  let config :=
    {| method := "get"; url := url; params := params; headers := headers;
       timeout := 10000 |} in
  try_catch
    (response ← external (Request config) (fun w => axios w config);
     if (status response =? 200) && truthy (data response)
     then mret (VObj [("success", VBool true); ("data", data response)])
     else throw (ErrorObject ("HTTP " +:+ Number_toString (status response)
                              +:+ ": " +:+ statusText response)))
    (fun error =>
       message ← message_or "Failed to get facility availability" error;
       mret (VObj [("success", VBool false); ("error", VStr message)])).

Definition getFacilityWeeklyAvailability (facilityId startDate endDate : string)
  : M value :=
  jar ← get_cookies;
  (if bool_decide (length (keys jar) = 0%nat)
   then refreshCookies;; mret ()
   else mret ());;
  let url :=
    baseUrl +:+ "/rest/reservation/resource/availability/daily/" +:+ facilityId in
  ui_random ← Date_now;
  let params :=
    [("start_date", startDate);
     ("end_date", endDate);
     ("customer_id", "0");
     ("company_id", "0");
     ("locale", "en-US");
     ("ui_random", Number_toString ui_random)] in
  let headers :=
    [("User-Agent", userAgent);
     ("Accept", "text/html,application/xhtml+xml,application/xml;q=0.9,*/*;q=0.8");
     ("Accept-Language", "en-CA,en-US;q=0.7,en;q=0.3");
     ("Referer",
      baseUrl +:+ "/reservation/landing/search/detail/" +:+ facilityId)] in
  jar ← get_cookies;
  let headers :=
    if bool_decide (0 < length (keys jar))%nat
    then assign headers "Cookie"
           (join "; " ((fun '(name, value) => name +:+ "=" +:+ value) <$> jar))
    else headers in
  let config :=
    {| method := "get"; url := url; params := params; headers := headers;
       timeout := 15000 |} in
  try_catch
    (response ← external (Request config) (fun w => axios w config);
     if (status response =? 200) && truthy (data response)
     then mret (VObj [("success", VBool true); ("data", data response)])
     else throw (ErrorObject ("HTTP " +:+ Number_toString (status response)
                              +:+ ": " +:+ statusText response)))
    (fun error =>
       message ← message_or "Failed to get weekly availability" error;
       mret (VObj [("success", VBool false); ("error", VStr message)])).

(** [facilitiesJson[centerName]]. *)
Definition entry_of (facilitiesJson : value) (centerName : string) : M member :=
  fun w m => (lookup_member (inherited w) facilitiesJson centerName, m).

Definition member_truthy (x : member) : bool :=
  match x with
  | Own v => truthy v
  | Inherited => true
  | Absent => false
  end.

(** [centerData.facilities]. *)
Definition member_facilities (centerData : member) : completion value :=
  match centerData with
  | Own v => get v "facilities"
  | Inherited => Normal VUndefined
  | Absent => Throw (TypeError (ReadOfNullish "facilities"))
  end.

(** [facilities.forEach(facility => { facility.center_name = centerName })]:
    the array with its elements updated in place.  No value of a parsed
    document is callable, so an own [forEach] is not a function either. *)
Definition forEach_tag (facilities : value) (centerName : string)
  : completion value :=
  match facilities with
  | VUndefined | VNull => Throw (TypeError (ReadOfNullish "forEach"))
  | VArr elems named =>
      match own named "forEach" with
      | Some _ => Throw (TypeError (NotAFunction "forEach"))
      | None =>
          elems' ←
            for_each
              (fun visited facility =>
                 facility' ← set facility "center_name" (VStr centerName);
                 mret (visited ++ [facility']))
              [] elems;
          mret (VArr elems' named)
      end
  | _ => Throw (TypeError (NotAFunction "forEach"))
  end.

Definition getFacilitiesByCenter (centerName : string) : M value :=
  try_catch
    (facilitiesJson ← read_catalog;
     no_center ←
       (if negb (truthy (VStr centerName)) then mret true
        else entry ← entry_of facilitiesJson centerName;
             mret (negb (member_truthy entry)));
     if no_center : bool
     then mret (VObj [("success", VBool true); ("data", VArr [] [])])
     else
       centerData ← entry_of facilitiesJson centerName;
       listed ← lift (member_facilities centerData);
       let facilities := or_else listed (VArr [] []) in
       facilities' ← lift (forEach_tag facilities centerName);
       mret (VObj [("success", VBool true); ("data", facilities')]))
    (fun error =>
       message ← message_or "Failed to load facilities by center" error;
       mret (VObj [("success", VBool false);
                   ("data", VArr [] []);
                   ("error", VStr message)])).

Definition getUniqueCenters : M value :=
  try_catch
    (facilitiesJson ← read_catalog;
     names ← lift (Object_keys facilitiesJson);
     let centers := sort names in
     mret (VObj [("success", VBool true);
                 ("data", VArr (VStr <$> centers) [])]))
    (fun error =>
       message ← message_or "Failed to load centers" error;
       mret (VObj [("success", VBool false);
                   ("data", VArr [] []);
                   ("error", VStr message)])).

Definition clearCache : M value :=
  set_facilitiesCache None;;
  try_catch
    (external (Unlink facilitiesCacheFile) unlink;; mret VUndefined)
    (fun _ => mret VUndefined).

(** ** The older sibling: src/api/ApiService.js

    Same fields and same calls; it differs in what its operations hand
    back.  The two operations modelled here are the ones whose results the
    design document describes in the sibling's terms. *)

Module Legacy.

(** [error.message], with no test of what was caught. *)
Definition message_of (error : thrown) : M value :=
  fun w m =>
    (match error with
     | ErrorObject message => Normal (VStr message)
     | TypeError cause => Normal (VStr (wording w cause))
     | NonError v => get v "message"
     end, m).

Definition refreshCookies : M value :=
  external Launch (fun w => Puppeteer.launch (browser w));;
  try_finally
    (try_catch
       (external NewPage (fun w => Puppeteer.newPage (browser w));;
        external (SetUserAgent userAgent)
          (fun w => Puppeteer.setUserAgent (browser w));;
        external
          (Goto (baseUrl +:+ "/reservation/landing/search") "networkidle2" 30000)
          (fun w => Puppeteer.goto (browser w));;
        cookies ← external Cookies (fun w => Puppeteer.cookies (browser w));
        set_cookies (harvest cookies);;
        jar ← get_cookies;
        mret (VObj [("success", VBool true);
                    ("cookieCount", VNum (Z.of_nat (length (keys jar))))]))
       (fun error =>
          message ← message_of error;
          mret (VObj [("success", VBool false); ("error", message)])))
    (external Close (fun w => Puppeteer.close (browser w))).

Definition getAllFacilities : M value :=
  try_catch
    (facilitiesJson ← read_catalog;
     entries ← lift (Object_entries facilitiesJson);
     facilities ←
       lift (for_each
               (fun facilities '(centerName, centerData) =>
                  listed ← get centerData "facilities";
                  centerFacilities ← iterate (or_else listed (VArr [] []));
                  for_each
                    (fun facilities facility =>
                       facility' ←
                         set facility "center_name" (VStr centerName);
                       mret (facilities ++ [facility']))
                    facilities centerFacilities)
               [] entries);
     set_facilitiesCache (Some facilities);;
     mret (VArr facilities []))
    (fun error => throw error).

(** The queries of the sibling hand the body back bare and rethrow what
    they catch, after reading [error.message] for the console. *)
Definition getFacilityAvailability (facilityId date : string) : M value :=
  jar ← get_cookies;
  (if bool_decide (length (keys jar) = 0%nat)
   then refreshCookies;; mret ()
   else mret ());;
  let startDate := date in
  let endDate := date in
  let url :=
    baseUrl +:+ "/rest/reservation/resource/availability/daily/" +:+ facilityId in
  ui_random ← Date_now;
  let params :=
    [("start_date", startDate);
     ("end_date", endDate);
     ("customer_id", "0");
     ("company_id", "0");
     ("locale", "en-US");
     ("ui_random", Number_toString ui_random)] in
  let headers :=
    [("User-Agent", userAgent);
     ("Accept", "text/html,application/xhtml+xml,application/xml;q=0.9,*/*;q=0.8");
     ("Accept-Language", "en-CA,en-US;q=0.7,en;q=0.3");
     ("Referer",
      baseUrl +:+ "/reservation/landing/search/detail/" +:+ facilityId)] in
  jar ← get_cookies;
  let headers :=
    if bool_decide (0 < length (keys jar))%nat
    then assign headers "Cookie"
           (join "; " ((fun '(name, value) => name +:+ "=" +:+ value) <$> jar))
    else headers in
  let config :=
    {| method := "get"; url := url; params := params; headers := headers;
       timeout := 10000 |} in
  try_catch
    (response ← external (Request config) (fun w => axios w config);
     if (status response =? 200) && truthy (data response)
     then mret (data response)
     else throw (ErrorObject ("HTTP " +:+ Number_toString (status response)
                              +:+ ": " +:+ statusText response)))
    (fun error => message_of error;; throw error).

Definition getFacilityWeeklyAvailability (facilityId startDate endDate : string)
  : M value :=
  jar ← get_cookies;
  (if bool_decide (length (keys jar) = 0%nat)
   then refreshCookies;; mret ()
   else mret ());;
  let url :=
    baseUrl +:+ "/rest/reservation/resource/availability/daily/" +:+ facilityId in
  ui_random ← Date_now;
  let params :=
    [("start_date", startDate);
     ("end_date", endDate);
     ("customer_id", "0");
     ("company_id", "0");
     ("locale", "en-US");
     ("ui_random", Number_toString ui_random)] in
  let headers :=
    [("User-Agent", userAgent);
     ("Accept", "text/html,application/xhtml+xml,application/xml;q=0.9,*/*;q=0.8");
     ("Accept-Language", "en-CA,en-US;q=0.7,en;q=0.3");
     ("Referer",
      baseUrl +:+ "/reservation/landing/search/detail/" +:+ facilityId)] in
  jar ← get_cookies;
  let headers :=
    if bool_decide (0 < length (keys jar))%nat
    then assign headers "Cookie"
           (join "; " ((fun '(name, value) => name +:+ "=" +:+ value) <$> jar))
    else headers in
  let config :=
    {| method := "get"; url := url; params := params; headers := headers;
       timeout := 15000 |} in
  try_catch
    (response ← external (Request config) (fun w => axios w config);
     if (status response =? 200) && truthy (data response)
     then mret (data response)
     else throw (ErrorObject ("HTTP " +:+ Number_toString (status response)
                              +:+ ": " +:+ statusText response)))
    (fun error => message_of error;; throw error).

(** The list operations of the sibling hand the array back bare, and an
    empty array for whatever they catch. *)
Definition getFacilitiesByCenter (centerName : string) : M value :=
  try_catch
    (facilitiesJson ← read_catalog;
     no_center ←
       (if negb (truthy (VStr centerName)) then mret true
        else entry ← entry_of facilitiesJson centerName;
             mret (negb (member_truthy entry)));
     if no_center : bool
     then mret (VArr [] [])
     else
       centerData ← entry_of facilitiesJson centerName;
       listed ← lift (member_facilities centerData);
       let facilities := or_else listed (VArr [] []) in
       facilities' ← lift (forEach_tag facilities centerName);
       mret facilities')
    (fun _ => mret (VArr [] [])).

Definition getUniqueCenters : M value :=
  try_catch
    (facilitiesJson ← read_catalog;
     names ← lift (Object_keys facilitiesJson);
     let centers := sort names in
     mret (VArr (VStr <$> centers) []))
    (fun _ => mret (VArr [] [])).

Definition clearCache : M value :=
  set_facilitiesCache None;;
  try_catch
    (external (Unlink facilitiesCacheFile) unlink;; mret VUndefined)
    (fun _ => mret VUndefined).

End Legacy.

(** ** A client's life

    The operations the facade exposes, invoked one after another, each in
    the world it finds.  A rejected operation does not end the life of the
    client. *)

Inductive operation :=
| RefreshCookies
| GetAllFacilities
| GetFacilityAvailability (facilityId date : string)
| GetFacilityWeeklyAvailability (facilityId startDate endDate : string)
| GetFacilitiesByCenter (centerName : string)
| GetUniqueCenters
| ClearCache.

Definition perform (op : operation) : M value :=
  match op with
  | RefreshCookies => refreshCookies
  | GetAllFacilities => getAllFacilities
  | GetFacilityAvailability facilityId date =>
      getFacilityAvailability facilityId date
  | GetFacilityWeeklyAvailability facilityId startDate endDate =>
      getFacilityWeeklyAvailability facilityId startDate endDate
  | GetFacilitiesByCenter centerName => getFacilitiesByCenter centerName
  | GetUniqueCenters => getUniqueCenters
  | ClearCache => clearCache
  end.

Fixpoint life (ops : list (operation * World)) (m : machine) : machine :=
  match ops with
  | [] => m
  | (op, w) :: rest => life rest (perform op w m).2
  end.

Definition fresh : machine := {| this := constructor; calls := [] |}.

(** ** A caller: grouping facilities by center

    [groupByCenter] of the renderer (the grid component and the preload
    utilities have the same text) builds an object from center names to
    arrays of facilities with [reduce].  A facility is of the interface
    Facility, whose [center_name] is a string; the function reads nothing
    else of it. *)

(** The names an object literal inherits from Object.prototype. *)
Definition Object_prototype_names : list string :=
  ["constructor"; "hasOwnProperty"; "isPrototypeOf"; "propertyIsEnumerable";
   "toLocaleString"; "toString"; "valueOf"; "__proto__";
   "__defineGetter__"; "__defineSetter__";
   "__lookupGetter__"; "__lookupSetter__"].

Section GroupByCenter.
Context {Facility : Type} (center_name : Facility -> string).

(** One turn of the reducer.  [groups[center]] is an array once the center
    has been seen; before that it is undefined, and an empty array is put
    there first, unless the name is inherited: then [groups[center]] is a
    built-in, it is truthy, and it has no [push].  The groups are kept in
    the order their centers are first seen; an engine enumerates the
    centers named by an array index before the others. *)
Definition group_step (groups : list (string * list Facility))
    (facility : Facility) : completion (list (string * list Facility)) :=
  let center := center_name facility in
  match own groups center with
  | Some seen => Normal (assign groups center (seen ++ [facility]))
  | None =>
      if bool_decide (center ∈ Object_prototype_names)
      then Throw (TypeError (NotAFunction "push"))
      else Normal (assign groups center [facility])
  end.

Definition groupByCenter (facilities : list Facility)
  : completion (list (string * list Facility)) :=
  for_each group_step [] facilities.

End GroupByCenter.

(** ** Vocabulary of the properties *)

(** The cookies a browser session yields, when it gets as far as the
    harvest: every step up to and including [page.cookies()] completes. *)
Definition harvested (b : Puppeteer.session) : option (list Cookie.t) :=
  match Puppeteer.launch b, Puppeteer.newPage b, Puppeteer.setUserAgent b,
        Puppeteer.goto b, Puppeteer.cookies b with
  | Normal _, Normal _, Normal _, Normal _, Normal cs => Some cs
  | _, _, _, _, _ => None
  end.

(** The requests among the calls made. *)
Definition requests (cs : list call) : list AxiosRequestConfig :=
  omap (fun c => match c with Request config => Some config | _ => None end) cs.

(** How often a browser was launched, that is, how often [refreshCookies]
    ran. *)
Definition launches (cs : list call) : nat :=
  length (omap (fun c => match c with Launch => Some () | _ => None end) cs).

(** Whether a browser session makes [refreshCookies] reject: the launch
    stands before the [try], the close sits in the [finally]. *)
Definition escapes (b : Puppeteer.session) : option thrown :=
  match Puppeteer.launch b with
  | Throw e => Some e
  | Normal _ =>
      match Puppeteer.close b with
      | Throw e => Some e
      | Normal _ => None
      end
  end.

(** The first failure inside the [try] of [refreshCookies], if any. *)
Definition fails_inside (b : Puppeteer.session) : option thrown :=
  match Puppeteer.newPage b, Puppeteer.setUserAgent b, Puppeteer.goto b,
        Puppeteer.cookies b with
  | Throw e, _, _, _ => Some e
  | Normal _, Throw e, _, _ => Some e
  | Normal _, Normal _, Throw e, _ => Some e
  | Normal _, Normal _, Normal _, Throw e => Some e
  | Normal _, Normal _, Normal _, Normal _ => None
  end.

(** The jar an operation leaves when it starts with [jar] and runs the
    availability precondition in a world whose browser is [b]. *)
Definition after_precondition (jar : list (string * string))
    (b : Puppeteer.session) : list (string * string) :=
  match jar, harvested b with
  | [], Some cs => harvest cs
  | _, _ => jar
  end.

(** The shape the loader expects of a catalog document (the interface
    FacilitiesJson): an object from center names to records whose
    [facilities], when present, is a list of resource records. *)
Definition record_like (v : value) : bool :=
  match v with VObj _ => true | _ => false end.

Definition center_shape (centerData : value) : bool :=
  match centerData with
  | VObj props =>
      match own props "facilities" with
      | None => true
      | Some (VArr resources []) => forallb record_like resources
      | Some _ => false
      end
  | _ => false
  end.

Definition catalog_shape (document : value) : bool :=
  match document with
  | VObj centers => forallb (fun center => center_shape center.2) centers
  | _ => false
  end.

(** The resources a center lists, and the resources of a whole catalog,
    each with the key of its center, in the order of the given entries. *)
Definition resources_of (centerData : value) : list value :=
  match centerData with
  | VObj props =>
      match own props "facilities" with
      | Some (VArr resources _) => resources
      | _ => []
      end
  | _ => []
  end.

Definition listing (centers : list (string * value)) : list (string * value) :=
  centers ≫= fun center =>
    (fun resource => (center.1, resource)) <$> resources_of center.2.

Definition total_resources (centers : list (string * value)) : nat :=
  sum_list ((fun center => length (resources_of center.2)) <$> centers).

(** The two results every operation of the client shapes. *)
Definition succeeded (payload : value) : value :=
  VObj [("success", VBool true); ("data", payload)].

Definition failed (message : string) : value :=
  VObj [("success", VBool false); ("error", VStr message)].

(** What [error instanceof Error ? error.message : fallback] evaluates to. *)
Definition described (w : World) (fallback : string) (error : thrown) : string :=
  match error with
  | ErrorObject message => message
  | TypeError cause => wording w cause
  | NonError _ => fallback
  end.

(** The request an availability query is to send, in the design document's
    words: a GET against the fixed backend path parameterized by the
    facility id, with the date range, customer_id=0, company_id=0,
    locale=en-US and a cache-busting token as query parameters, the fixed
    desktop-browser headers, and the serialized jar as Cookie header when
    the jar holds something. *)
Definition availability_request (jar : list (string * string)) (token : Z)
    (facilityId startDate endDate : string) (limit : Z) : AxiosRequestConfig :=
  {| method := "get";
     url := baseUrl +:+ "/rest/reservation/resource/availability/daily/"
            +:+ facilityId;
     params := [("start_date", startDate);
                ("end_date", endDate);
                ("customer_id", "0");
                ("company_id", "0");
                ("locale", "en-US");
                ("ui_random", Number_toString token)];
     headers :=
       [("User-Agent", userAgent);
        ("Accept", "text/html,application/xhtml+xml,application/xml;q=0.9,*/*;q=0.8");
        ("Accept-Language", "en-CA,en-US;q=0.7,en;q=0.3");
        ("Referer",
         baseUrl +:+ "/reservation/landing/search/detail/" +:+ facilityId)]
       ++ match jar with
          | [] => []
          | _ => [("Cookie",
                   join "; " ((fun '(name, value) => name +:+ "=" +:+ value) <$> jar))]
          end;
     timeout := limit |}.

(** What a query makes of the answer to its request. *)
Definition availability_result (w : World) (fallback : string)
    (config : AxiosRequestConfig) : value :=
  match axios w config with
  | Normal response =>
      if (status response =? 200) && truthy (data response)
      then succeeded (data response)
      else failed ("HTTP " +:+ Number_toString (status response)
                   +:+ ": " +:+ statusText response)
  | Throw e => failed (described w fallback e)
  end.

(** The availability precondition: a refresh when the jar is empty. *)
Definition precondition (w : World) (m : machine) : completion value * machine :=
  match cookies (this m) with
  | [] => refreshCookies w m
  | _ => (Normal VUndefined, m)
  end.

(** Whether an availability query is cut short: the jar is empty and the
    refresh this triggers rejects. *)
Definition cut_short (jar : list (string * string)) (b : Puppeteer.session)
  : bool :=
  match jar, escapes b with
  | [], Some _ => true
  | _, _ => false
  end.

(** The jar an operation leaves, given the jar it finds and the browser
    session of its world.  Neither the catalog nor the answer of the
    backend matters, and the harvest does not depend on the jar found. *)
Definition jar_after (op : operation) (b : Puppeteer.session)
    (jar : list (string * string)) : list (string * string) :=
  match op with
  | RefreshCookies =>
      match harvested b with
      | Some cs => harvest cs
      | None => jar
      end
  | GetFacilityAvailability _ _
  | GetFacilityWeeklyAvailability _ _ _ => after_precondition jar b
  | GetAllFacilities | GetFacilitiesByCenter _ | GetUniqueCenters
  | ClearCache => jar
  end.

(** Two requests that differ in nothing but the timeout (10 s against 15 s)
    and the cache-busting token, which comes last among the parameters. *)
Definition differ_in_timeout_and_token (daily weekly : AxiosRequestConfig)
  : Prop :=
  method daily = method weekly
  /\ url daily = url weekly
  /\ headers daily = headers weekly
  /\ (exists common token token',
        params daily = common ++ [("ui_random", token)]
        /\ params weekly = common ++ [("ui_random", token')]
        /\ "ui_random" ∉ keys common)
  /\ timeout daily = 10000
  /\ timeout weekly = 15000.

(** A resource record once the loader has put the key of its center on
    it. *)
Definition tagged (centerName : string) (resource : value) : value :=
  match resource with
  | VObj props => VObj (assign props "center_name" (VStr centerName))
  | _ => resource
  end.

(** The page calls of one acquisition, in order, and how many of them a
    session gets to make: every call up to and including the first that
    throws. *)
Definition page_script : list call :=
  [NewPage;
   SetUserAgent userAgent;
   Goto (baseUrl +:+ "/reservation/landing/search") "networkidle2" 30000;
   Cookies].

Definition reached (b : Puppeteer.session) : nat :=
  match Puppeteer.newPage b, Puppeteer.setUserAgent b, Puppeteer.goto b with
  | Throw _, _, _ => 1
  | Normal _, Throw _, _ => 2
  | Normal _, Normal _, Throw _ => 3
  | Normal _, Normal _, Normal _ => 4
  end%nat.

(** The value of the last cookie of a given name. *)
Definition last_value (cs : list Cookie.t) (name : string) : option string :=
  Cookie.value <$> last (filter (fun c => Cookie.name c = name) cs).

Definition is_query (op : operation) : bool :=
  match op with
  | GetFacilityAvailability _ _ | GetFacilityWeeklyAvailability _ _ _ => true
  | _ => false
  end.

Definition is_catalog_operation (op : operation) : bool :=
  match op with
  | GetAllFacilities | GetFacilitiesByCenter _ | GetUniqueCenters => true
  | _ => false
  end.

(** The list a result of [getAllFacilities] carries, when it is a
    success. *)
Definition loaded (result : completion value) : option (list value) :=
  match result with
  | Normal (VObj [("success", VBool true); ("data", VArr facilities [])]) =>
      Some facilities
  | _ => None
  end.

(** A result of the TypeScript class wraps what the sibling does in the
    same situation: the same calls and fields after, a success around the
    body the sibling returns, a shaped failure where the sibling
    rejects. *)
Definition wraps (typed bare : completion value * machine) : Prop :=
  typed.2 = bare.2
  /\ match bare.1 with
     | Normal body => typed.1 = Normal (succeeded body)
     | Throw _ => exists message, typed.1 = Normal (failed message)
     end.

(** The [data] field of a returned object. *)
Definition data_of (result : completion value) : option value :=
  match result with
  | Normal (VObj props) => own props "data"
  | _ => None
  end.

Definition nonempty {A} (l : list A) : option (list A) :=
  match l with
  | [] => None
  | _ => Some l
  end.

(** ** Documents and the order of their keys

    The text of a JSON object lists its members in some order; the object
    [JSON.parse] builds from it enumerates its properties in another one
    when a name is an array index.  [array_index] recognises such names:
    the canonical decimal numerals up to 2^32 - 2. *)

Definition digit_value (c : Ascii.ascii) : option N :=
  let n := Ascii.N_of_ascii c in
  if ((48 <=? n) && (n <=? 57))%N then Some (n - 48)%N else None.

Fixpoint numeral_value (s : string) (acc : N) : option N :=
  match s with
  | EmptyString => Some acc
  | String c rest =>
      match digit_value c with
      | Some d => numeral_value rest (10 * acc + d)%N
      | None => None
      end
  end.

Definition array_index (k : string) : option N :=
  match k with
  | EmptyString => None
  | String c rest =>
      if (Ascii.N_of_ascii c =? 48)%N && negb (String.eqb rest "") then None
      else match numeral_value k 0 with
           | Some n => if (n <=? 4294967294)%N then Some n else None
           | None => None
           end
  end.

(** The members of an object whose name is an array index, and the order
    among them. *)
Definition index_named {A} (member : string * A) : Prop :=
  is_Some (array_index member.1).

Global Instance index_named_dec {A} (member : string * A)
  : Decision (index_named member).
Proof. unfold index_named. apply _. Defined.

Definition index_le {A} (p q : string * A) : Prop :=
  (default 0 (array_index p.1) <= default 0 (array_index q.1))%N.

Global Instance index_le_dec {A} (p q : string * A) : Decision (index_le p q).
Proof. unfold index_le. apply _. Defined.

(** The properties [JSON.parse] creates from the members of an object of
    the text, in the order of creation: a member creates its property, or
    overwrites the value of the one of the same name, which keeps its
    place. *)
Definition created {A} (members : list (string * A)) : list (string * A) :=
  foldl (fun props member => assign props member.1 member.2) [] members.

(** The properties of the object parsed from a text whose members are
    [members], in the order the object enumerates them, which is the order
    of [Object.entries] and [Object.keys]: the properties named by an array
    index come first, by ascending index, the others follow in the order
    of creation. *)
Definition own_property_order {A} (members : list (string * A))
  : list (string * A) :=
  merge_sort index_le (filter index_named (created members))
  ++ filter (fun member => ~ index_named member) (created members).

(** ** Sample worlds *)

Definition Error (message : string) : thrown := ErrorObject message.

Definition smooth_session (cs : list Cookie.t) : Puppeteer.session :=
  {| Puppeteer.launch := Normal ();
     Puppeteer.newPage := Normal ();
     Puppeteer.setUserAgent := Normal ();
     Puppeteer.goto := Normal ();
     Puppeteer.cookies := Normal cs;
     Puppeteer.close := Normal () |}.

Definition no_browser (e : thrown) : Puppeteer.session :=
  {| Puppeteer.launch := Throw e;
     Puppeteer.newPage := Normal ();
     Puppeteer.setUserAgent := Normal ();
     Puppeteer.goto := Normal ();
     Puppeteer.cookies := Normal [];
     Puppeteer.close := Normal () |}.

Definition navigation_timeout (e : thrown) : Puppeteer.session :=
  {| Puppeteer.launch := Normal ();
     Puppeteer.newPage := Normal ();
     Puppeteer.setUserAgent := Normal ();
     Puppeteer.goto := Throw e;
     Puppeteer.cookies := Normal [];
     Puppeteer.close := Normal () |}.

Definition world_of (b : Puppeteer.session) (c : catalog_source)
    (answer : completion AxiosResponse) : World :=
  {| browser := b;
     catalog := c;
     unlink := Normal ();
     now := 1705312800000;
     axios := fun _ => answer;
     wording := fun _ => "TypeError";
     inherited := fun _ k => bool_decide (k ∈ ["constructor"; "toString"; "valueOf"; "hasOwnProperty"; "__proto__"]) |}.

Definition session_cookie : Cookie.t :=
  {| Cookie.name := "JSESSIONID"; Cookie.value := "abc123" |}.

Definition ok_body : value := VObj [("ok", VBool true)].

Definition gym : value := VObj [("id", VStr "101"); ("name", VStr "Gymnasium")].
Definition pool : value := VObj [("id", VStr "102"); ("name", VStr "Pool")].
Definition room : value := VObj [("id", VStr "201"); ("name", VStr "Meeting Room")].

Definition sample_catalog : value :=
  VObj [("Burnhamthorpe CC", VObj [("facilities", VArr [gym; pool] [])]);
        ("Central Library", VObj [("facilities", VArr [room] [])]);
        ("Closed Hall", VObj [("facilities", VArr [] [])]);
        ("New Site", VObj [])].

(** * Properties *)

(** ** The order of [sort] *)

Section CodeUnitOrder.

Lemma ascii_compare_refl a : Ascii.compare a a = Eq.
Proof. unfold Ascii.compare. apply N.compare_refl. Qed.

Lemma ascii_compare_lt_trans a b c :
  Ascii.compare a b = Lt -> Ascii.compare b c = Lt -> Ascii.compare a c = Lt.
Proof.
  unfold Ascii.compare. rewrite !N.compare_lt_iff. apply N.lt_trans.
Qed.

Lemma string_compare_refl s : String.compare s s = Eq.
Proof.
  induction s as [|a s IH]; [done|].
  cbn. by rewrite ascii_compare_refl.
Qed.

Lemma string_compare_lt_trans s t u :
  String.compare s t = Lt -> String.compare t u = Lt ->
  String.compare s u = Lt.
Proof.
  revert t u. induction s as [|a s IH]; intros [|b t] [|c u]; cbn; try done.
  destruct (Ascii.compare a b) eqn:Hab; try done;
    destruct (Ascii.compare b c) eqn:Hbc; try done; intros Hst Htu.
  - apply Ascii.compare_eq_iff in Hab, Hbc. subst.
    rewrite ascii_compare_refl. eauto.
  - apply Ascii.compare_eq_iff in Hab. subst. by rewrite Hbc.
  - apply Ascii.compare_eq_iff in Hbc. subst. by rewrite Hab.
  - by rewrite (ascii_compare_lt_trans a b c).
Qed.

Lemma code_unit_le_cases s t :
  code_unit_le s t <-> String.compare s t = Lt \/ s = t.
Proof.
  unfold code_unit_le, String.leb. split.
  - destruct (String.compare s t) eqn:E; try done; [right|left]; try done.
    by apply String.compare_eq_iff.
  - intros [->| ->]; [done|]. by rewrite string_compare_refl.
Qed.

Global Instance code_unit_le_refl : Reflexive code_unit_le.
Proof. intros s. apply code_unit_le_cases. by right. Qed.

Global Instance code_unit_le_trans : Transitive code_unit_le.
Proof.
  intros s t u. rewrite !code_unit_le_cases.
  intros [Hst| ->] [Htu| ->]; eauto using string_compare_lt_trans.
Qed.

Global Instance code_unit_le_total : Total code_unit_le.
Proof. intros s t. apply String.leb_total. Qed.

Global Instance code_unit_le_antisym : AntiSymm (=) code_unit_le.
Proof. intros s t. apply String.leb_antisym. Qed.

Lemma sort_sorted l : Sorted code_unit_le (sort l).
Proof. apply (Sorted_merge_sort code_unit_le). Qed.

Lemma sort_permutation l : sort l ≡ₚ l.
Proof. apply (merge_sort_Permutation code_unit_le). Qed.

(** Whatever algorithm the engine uses, a sorted rearrangement of the
    names is this one. *)
Lemma sort_unique l l' :
  l' ≡ₚ l -> Sorted code_unit_le l' -> l' = sort l.
Proof.
  intros Hp Hs.
  apply (Sorted_unique code_unit_le); [done|apply sort_sorted|].
  by rewrite Hp, sort_permutation.
Qed.

(** Upper case sorts before lower case: the order is by code unit. *)
Example sort_case_sensitive :
  sort ["b"; "B"; "a"; "10"; "2"] = ["10"; "2"; "B"; "a"; "b"].
Proof. reflexivity. Qed.

End CodeUnitOrder.

(** ** Cookie acquisition *)

(** One step of symbolic execution: the monad is unfolded and the fields
    of explicit records are read; the JavaScript helpers and the strings
    are left alone. *)
Ltac run :=
  cbv [mbind mret M_bind M_ret completion_bind completion_ret
       external try_catch try_finally lift throw
       get_cookies set_cookies set_facilitiesCache message_or Date_now
       read_catalog entry_of];
  cbn [this calls cookies facilitiesCache fst snd
       browser catalog unlink now axios wording inherited
       Puppeteer.launch Puppeteer.newPage Puppeteer.setUserAgent
       Puppeteer.goto Puppeteer.cookies Puppeteer.close].

Tactic Notation "run" "in" hyp(H) :=
  cbv [mbind mret M_bind M_ret completion_bind completion_ret
       external try_catch try_finally lift throw
       get_cookies set_cookies set_facilitiesCache message_or Date_now
       read_catalog entry_of] in H;
  cbn [this calls cookies facilitiesCache fst snd
       browser catalog unlink now axios wording inherited
       Puppeteer.launch Puppeteer.newPage Puppeteer.setUserAgent
       Puppeteer.goto Puppeteer.cookies Puppeteer.close] in H.

(** Every way a browser session can go: each awaited call completes or
    throws. *)
Ltac browser_cases w :=
  destruct w as [[[[]|?] [[]|?] [[]|?] [[]|?] [?|?] [[]|?]] ? ? ? ? ? ?].

(** The jar after [refreshCookies]: replaced by the harvest when the
    session gets that far, untouched otherwise. *)
Lemma refreshCookies_cookies w m :
  cookies (this (refreshCookies w m).2) =
  match harvested (browser w) with
  | Some cs => harvest cs
  | None => cookies (this m)
  end.
Proof. browser_cases w; reflexivity. Qed.

Lemma refreshCookies_facilitiesCache w m :
  facilitiesCache (this (refreshCookies w m).2) = facilitiesCache (this m).
Proof. browser_cases w; reflexivity. Qed.

(** What [refreshCookies] completes with. *)
Lemma refreshCookies_completion w m :
  (refreshCookies w m).1 =
  match escapes (browser w) with
  | Some e => Throw e
  | None =>
      match fails_inside (browser w) with
      | Some e => Normal (failed (described w "Unknown error" e))
      | None =>
          Normal
            (VObj [("success", VBool true);
                   ("data", VBool true);
                   ("message",
                    VStr ("Got "
                          +:+ Number_toString
                                (Z.of_nat (length (cookies (this (refreshCookies w m).2))))
                          +:+ " cookies"))])
      end
  end.
Proof.
  browser_cases w; try reflexivity.
  unfold refreshCookies; run. unfold keys. by rewrite length_fmap.
Qed.

Lemma refreshCookies_requests w m :
  requests (calls (refreshCookies w m).2) = requests (calls m).
Proof.
  browser_cases w; unfold refreshCookies; run; unfold requests;
    rewrite ?omap_app; cbn; by rewrite ?app_nil_r.
Qed.

Lemma refreshCookies_launches w m :
  launches (calls (refreshCookies w m).2) = S (launches (calls m)).
Proof.
  browser_cases w; unfold refreshCookies; run; unfold launches;
    rewrite ?omap_app, ?length_app; cbn; lia.
Qed.

Lemma refreshCookies_returns w m :
  is_Normal (refreshCookies w m).1 = true <-> escapes (browser w) = None.
Proof.
  rewrite refreshCookies_completion.
  destruct (escapes (browser w)); [done|].
  by destruct (fails_inside (browser w)).
Qed.

(** A failure inside the [try] is caught and shaped, provided the browser
    could be launched and closes. *)
Lemma refreshCookies_failure_is_shaped w m e :
  escapes (browser w) = None -> fails_inside (browser w) = Some e ->
  (refreshCookies w m).1 = Normal (failed (described w "Unknown error" e)).
Proof. intros He Hf. by rewrite refreshCookies_completion, He, Hf. Qed.

Lemma legacy_refreshCookies_cookies w m :
  cookies (this (Legacy.refreshCookies w m).2) =
  match harvested (browser w) with
  | Some cs => harvest cs
  | None => cookies (this m)
  end.
Proof.
  destruct m as [[jar cache] made].
  browser_cases w; try reflexivity.
  all: unfold Legacy.refreshCookies, Legacy.message_of; run.
  all: match goal with |- context [match ?e with ErrorObject _ => _ | _ => _ end] =>
         destruct e as [?|?|[]]
       end; reflexivity.
Qed.

Lemma length_assign {A} (props : list (string * A)) k v :
  (length (assign props k v) <= S (length props))%nat.
Proof.
  induction props as [|[k' v'] props IH]; cbn; [lia|].
  destruct (String.eqb k' k); cbn; lia.
Qed.

Lemma length_foldl_store acc cs :
  (length (foldl store acc cs) <= length acc + length cs)%nat.
Proof.
  revert acc. induction cs as [|c cs IH]; intros acc; cbn; [lia|].
  etrans; [apply IH|]. unfold store.
  destruct (String.eqb (Cookie.name c) "__proto__"); [lia|].
  pose proof (length_assign acc (Cookie.name c) (Cookie.value c)). lia.
Qed.

(** The jar never holds more entries than cookies were harvested; it holds
    fewer when names repeat. *)
Lemma length_harvest cs : (length (harvest cs) <= length cs)%nat.
Proof. apply (length_foldl_store [] cs). Qed.

Example harvest_repeated_name :
  harvest [ {| Cookie.name := "sid"; Cookie.value := "1" |};
            {| Cookie.name := "lang"; Cookie.value := "en" |};
            {| Cookie.name := "sid"; Cookie.value := "2" |} ]
  = [("sid", "2"); ("lang", "en")].
Proof. reflexivity. Qed.

(** C1, where the code departs from it.  The claim: on every failure during
    cookie acquisition, a failed browser launch included, [refreshCookies]
    returns [{success: false, error: message}] and no exception escapes.
    The code: [puppeteer.launch] is awaited before the [try], so when the
    browser cannot be launched the rejection leaves [refreshCookies], in
    the TypeScript class and in its sibling alike, after the single call
    to launch. *)
Theorem refreshCookies_launch_failure_escapes :
  let e := Error "Failed to launch the browser process!" in
  let w := world_of (no_browser e) (Document sample_catalog)
             (Throw (Error "connect ECONNREFUSED")) in
  refreshCookies w fresh
    = (Throw e, {| this := constructor; calls := [Launch] |})
  /\ Legacy.refreshCookies w fresh
    = (Throw e, {| this := constructor; calls := [Launch] |}).
Proof. split; reflexivity. Qed.

(** The same acquisition failing one step later, at the navigation, is
    caught and shaped as the claim says. *)
Example refreshCookies_navigation_timeout :
  let e := Error "Navigation timeout of 30000 ms exceeded" in
  let w := world_of (navigation_timeout e) (Document sample_catalog)
             (Throw (Error "connect ECONNREFUSED")) in
  (refreshCookies w fresh).1
    = Normal (failed "Navigation timeout of 30000 ms exceeded").
Proof. reflexivity. Qed.

(** C3, as the code has it.  When the acquisition succeeds (the session
    reaches the harvest and the browser closes), the TypeScript
    [refreshCookies] returns [{success: true, data: true, message: "Got n
    cookies"}] and the sibling returns [{success: true, cookieCount: n}],
    where n is the number of entries of the jar the call leaves, which is
    the harvest and holds at most one entry per harvested cookie. *)
Theorem refreshCookies_reports_jar_size w m cs :
  harvested (browser w) = Some cs ->
  Puppeteer.close (browser w) = Normal () ->
  let n := Z.of_nat (length (harvest cs)) in
  (refreshCookies w m).1
    = Normal (VObj [("success", VBool true);
                    ("data", VBool true);
                    ("message",
                     VStr ("Got " +:+ Number_toString n +:+ " cookies"))])
  /\ (Legacy.refreshCookies w m).1
    = Normal (VObj [("success", VBool true); ("cookieCount", VNum n)])
  /\ cookies (this (refreshCookies w m).2) = harvest cs
  /\ cookies (this (Legacy.refreshCookies w m).2) = harvest cs
  /\ (length (harvest cs) <= length cs)%nat.
Proof.
  intros Hh Hc n.
  rewrite refreshCookies_cookies, legacy_refreshCookies_cookies, Hh.
  split_and!; try done; [| |apply length_harvest].
  - rewrite refreshCookies_completion, refreshCookies_cookies, Hh.
    revert Hh Hc. browser_cases w; cbn; done.
  - revert Hh Hc. browser_cases w; cbn; try done. intros [= ->] _.
    unfold Legacy.refreshCookies; run. unfold keys. by rewrite length_fmap.
Qed.

Lemma refreshCookies_reports_jar_size_witness :
  let w := world_of (smooth_session [session_cookie]) (Document sample_catalog)
             (Throw (Error "connect ECONNREFUSED")) in
  (refreshCookies w fresh).1
    = Normal (VObj [("success", VBool true);
                    ("data", VBool true);
                    ("message", VStr "Got 1 cookies")])
  /\ (Legacy.refreshCookies w fresh).1
    = Normal (VObj [("success", VBool true); ("cookieCount", VNum 1)]).
Proof.
  intros w.
  destruct (refreshCookies_reports_jar_size w fresh [session_cookie]
              eq_refl eq_refl) as (H1 & H2 & _).
  split; [exact H1 | exact H2].
Defined.

(** C3 as stated fails on the TypeScript class: after a successful
    acquisition of one cookie the payload [data] is the boolean [true], not
    the count 1, and there is no [cookieCount]. *)
Lemma refreshCookies_payload_is_not_the_count :
  let w := world_of (smooth_session [session_cookie]) (Document sample_catalog)
             (Throw (Error "connect ECONNREFUSED")) in
  exists props,
    (refreshCookies w fresh).1 = Normal (VObj props)
    /\ length (cookies (this (refreshCookies w fresh).2)) = 1%nat
    /\ own props "success" = Some (VBool true)
    /\ own props "data" = Some (VBool true)
    /\ own props "data" <> Some (VNum 1)
    /\ own props "cookieCount" = None.
Proof. eexists. split_and!; try reflexivity. discriminate. Qed.

(** ** Availability queries *)

Ltac tidy_headers :=
  cbn [app assign String.eqb Ascii.eqb Bool.eqb].

Ltac query_cases w :=
  repeat match goal with
    | |- context [axios w ?c] => destruct (axios w c) as [?|[]]
    | |- context [(status ?r =? 200) && truthy (data ?r)] =>
        destruct ((status r =? 200) && truthy (data r))
    end.

(** The daily query, step by step: the precondition; when the refresh it
    may trigger rejects, so does the query; otherwise the request of the
    design document is sent with the jar as it then is, and the answer is
    shaped. *)
Lemma getFacilityAvailability_run facilityId date w m :
  getFacilityAvailability facilityId date w m =
  match precondition w m with
  | (Throw e, m1) => (Throw e, m1)
  | (Normal _, m1) =>
      let config :=
        availability_request (cookies (this m1)) (now w)
          facilityId date date 10000 in
      (Normal (availability_result w "Failed to get facility availability" config),
       {| this := this m1; calls := calls m1 ++ [Request config] |})
  end.
Proof.
  destruct m as [[jar cache] made].
  unfold getFacilityAvailability, precondition, availability_result,
    availability_request. run.
  destruct jar as [|[name value] jar]; cbn [keys fmap list_fmap length].
  - case_bool_decide; [|done].
    destruct (refreshCookies w _) as [[r|e] [[[|[name value] jar] cache1] made1]];
      run; cbn [keys fmap list_fmap length]; try reflexivity;
      case_bool_decide; try lia; tidy_headers; query_cases w; reflexivity.
  - case_bool_decide; [done|]. run; cbn [keys fmap list_fmap length].
    case_bool_decide; [|lia]. tidy_headers; query_cases w; reflexivity.
Qed.

Lemma getFacilityWeeklyAvailability_run facilityId startDate endDate w m :
  getFacilityWeeklyAvailability facilityId startDate endDate w m =
  match precondition w m with
  | (Throw e, m1) => (Throw e, m1)
  | (Normal _, m1) =>
      let config :=
        availability_request (cookies (this m1)) (now w)
          facilityId startDate endDate 15000 in
      (Normal (availability_result w "Failed to get weekly availability" config),
       {| this := this m1; calls := calls m1 ++ [Request config] |})
  end.
Proof.
  destruct m as [[jar cache] made].
  unfold getFacilityWeeklyAvailability, precondition, availability_result,
    availability_request. run.
  destruct jar as [|[name value] jar]; cbn [keys fmap list_fmap length].
  - case_bool_decide; [|done].
    destruct (refreshCookies w _) as [[r|e] [[[|[name value] jar] cache1] made1]];
      run; cbn [keys fmap list_fmap length]; try reflexivity;
      case_bool_decide; try lia; tidy_headers; query_cases w; reflexivity.
  - case_bool_decide; [done|]. run; cbn [keys fmap list_fmap length].
    case_bool_decide; [|lia]. tidy_headers; query_cases w; reflexivity.
Qed.

Lemma precondition_cookies w m :
  cookies (this (precondition w m).2)
  = after_precondition (cookies (this m)) (browser w).
Proof.
  unfold precondition, after_precondition.
  destruct (cookies (this m)) eqn:Hjar; [|done].
  rewrite refreshCookies_cookies, Hjar. by destruct (harvested (browser w)).
Qed.

Lemma precondition_completion w m :
  is_Normal (precondition w m).1 = negb (cut_short (cookies (this m)) (browser w)).
Proof.
  unfold precondition, cut_short.
  destruct (cookies (this m)); [|done].
  rewrite refreshCookies_completion.
  destruct (escapes (browser w)); [done|].
  by destruct (fails_inside (browser w)).
Qed.

Lemma precondition_requests w m :
  requests (calls (precondition w m).2) = requests (calls m).
Proof.
  unfold precondition. destruct (cookies (this m)); [|done].
  apply refreshCookies_requests.
Qed.

Lemma precondition_launches w m :
  launches (calls (precondition w m).2)
  = match cookies (this m) with
    | [] => S (launches (calls m))
    | _ => launches (calls m)
    end.
Proof.
  unfold precondition. destruct (cookies (this m)); [|done].
  apply refreshCookies_launches.
Qed.

Lemma requests_snoc made config :
  requests (made ++ [Request config]) = requests made ++ [config].
Proof. unfold requests. by rewrite omap_app. Qed.

Lemma launches_snoc_request made config :
  launches (made ++ [Request config]) = launches made.
Proof. unfold launches. rewrite omap_app, length_app. cbn. lia. Qed.

(** The requests an availability query adds to those made before. *)
Lemma getFacilityAvailability_requests facilityId date w m :
  requests (calls (getFacilityAvailability facilityId date w m).2)
  = requests (calls m)
    ++ if cut_short (cookies (this m)) (browser w) then []
       else [availability_request
               (after_precondition (cookies (this m)) (browser w))
               (now w) facilityId date date 10000].
Proof.
  rewrite getFacilityAvailability_run.
  pose proof (precondition_cookies w m) as Hc.
  pose proof (precondition_completion w m) as Hn.
  pose proof (precondition_requests w m) as Hr.
  destruct (precondition w m) as [[r|e] m1]; cbn in *;
    destruct (cut_short _ _); try done.
  - by rewrite requests_snoc, Hr, Hc.
  - by rewrite Hr, app_nil_r.
Qed.

Lemma getFacilityWeeklyAvailability_requests facilityId startDate endDate w m :
  requests (calls (getFacilityWeeklyAvailability facilityId startDate endDate w m).2)
  = requests (calls m)
    ++ if cut_short (cookies (this m)) (browser w) then []
       else [availability_request
               (after_precondition (cookies (this m)) (browser w))
               (now w) facilityId startDate endDate 15000].
Proof.
  rewrite getFacilityWeeklyAvailability_run.
  pose proof (precondition_cookies w m) as Hc.
  pose proof (precondition_completion w m) as Hn.
  pose proof (precondition_requests w m) as Hr.
  destruct (precondition w m) as [[r|e] m1]; cbn in *;
    destruct (cut_short _ _); try done.
  - by rewrite requests_snoc, Hr, Hc.
  - by rewrite Hr, app_nil_r.
Qed.

(** What an availability query completes with when it is not cut short. *)
Lemma getFacilityAvailability_completion facilityId date w m :
  cut_short (cookies (this m)) (browser w) = false ->
  (getFacilityAvailability facilityId date w m).1
  = Normal (availability_result w "Failed to get facility availability"
              (availability_request
                 (after_precondition (cookies (this m)) (browser w))
                 (now w) facilityId date date 10000)).
Proof.
  intros Hcut. rewrite getFacilityAvailability_run.
  pose proof (precondition_cookies w m) as Hc.
  pose proof (precondition_completion w m) as Hn.
  rewrite Hcut in Hn.
  destruct (precondition w m) as [[r|e] m1]; cbn in *; [|done].
  by rewrite Hc.
Qed.

(** The best-effort policy, as far as the code keeps it.  With an empty
    jar the daily query launches one browser, and when that refresh does
    not reject, whether it harvested or failed inside its [try], one
    request follows the calls of the refresh; after a failed refresh the
    jar is still empty and the request carries no Cookie header. *)
Lemma getFacilityAvailability_best_effort facilityId date w m :
  cookies (this m) = [] -> escapes (browser w) = None ->
  let m' := (getFacilityAvailability facilityId date w m).2 in
  let config :=
    availability_request
      (match harvested (browser w) with
       | Some cs => harvest cs
       | None => []
       end)
      (now w) facilityId date date 10000 in
  calls m' = calls (refreshCookies w m).2 ++ [Request config]
  /\ launches (calls m') = S (launches (calls m))
  /\ requests (calls m') = requests (calls m) ++ [config]
  /\ is_Normal (getFacilityAvailability facilityId date w m).1 = true.
Proof.
  intros Hjar Hesc m' config. subst m' config. split_and!.
  - rewrite getFacilityAvailability_run.
    pose proof (precondition_cookies w m) as Hc.
    pose proof (precondition_completion w m) as Hn.
    unfold cut_short in Hn. unfold after_precondition in Hc.
    rewrite Hjar, Hesc in Hn. rewrite Hjar in Hc.
    unfold precondition in *. rewrite Hjar in *.
    destruct (refreshCookies w m) as [[r|e] m1];
      cbn [fst snd is_Normal negb calls] in *; [|done].
    by rewrite Hc.
  - rewrite getFacilityAvailability_run.
    pose proof (precondition_launches w m) as Hl.
    pose proof (precondition_completion w m) as Hn.
    unfold cut_short in Hn. rewrite Hjar, Hesc in Hn. rewrite Hjar in Hl.
    destruct (precondition w m) as [[r|e] m1];
      cbn [fst snd is_Normal negb calls] in *; [|done].
    by rewrite launches_snoc_request.
  - rewrite getFacilityAvailability_requests.
    unfold cut_short, after_precondition. by rewrite Hjar, Hesc.
  - rewrite getFacilityAvailability_completion; [done|].
    unfold cut_short. by rewrite Hjar, Hesc.
Qed.

(** C2, where the code departs from it.  The claim: with an empty jar the
    daily query triggers one refresh, and when that refresh fails, a failed
    browser launch included, the request is still attempted, with an empty
    cookie set.  The code: a failed launch makes [refreshCookies] reject
    (the defect of C1), the query awaits it outside its own [try], and so
    the query rejects after the one launch, with no request made. *)
Theorem getFacilityAvailability_launch_failure_aborts :
  let e := Error "Failed to launch the browser process!" in
  let w := world_of (no_browser e) (Document sample_catalog)
             (Normal {| status := 200; statusText := "OK"; data := ok_body |}) in
  getFacilityAvailability "123" "2024-01-15" w fresh
    = (Throw e, {| this := constructor; calls := [Launch] |})
  /\ requests [Launch] = []
  /\ launches [Launch] = 1%nat.
Proof. split_and!; reflexivity. Qed.

(** A refresh that fails at the navigation, by contrast, does not stop
    the query: the request goes out without a Cookie header. *)
Example getFacilityAvailability_after_navigation_timeout :
  let e := Error "Navigation timeout of 30000 ms exceeded" in
  let w := world_of (navigation_timeout e) (Document sample_catalog)
             (Normal {| status := 200; statusText := "OK"; data := ok_body |}) in
  (getFacilityAvailability "123" "2024-01-15" w fresh).1
    = Normal (succeeded ok_body)
  /\ requests (calls (getFacilityAvailability "123" "2024-01-15" w fresh).2)
    = [availability_request [] (now w) "123" "2024-01-15" "2024-01-15" 10000].
Proof. split; reflexivity. Qed.

(** C8, as the code has it.  When the daily query reaches the backend (it
    is not cut short by a rejecting refresh) and the backend answers with
    status 200 and a truthy body, that is, a [response.data] other than
    null, undefined, false, 0 and the empty string, the query returns
    [{success: true, data: body}] with the body as received: nothing is
    validated or transformed. *)
Theorem getFacilityAvailability_passes_body_through
    facilityId date w m response :
  cut_short (cookies (this m)) (browser w) = false ->
  axios w (availability_request
             (after_precondition (cookies (this m)) (browser w))
             (now w) facilityId date date 10000)
  = Normal response ->
  status response = 200 ->
  truthy (data response) = true ->
  (getFacilityAvailability facilityId date w m).1
  = Normal (VObj [("success", VBool true); ("data", data response)]).
Proof.
  intros Hcut Haxios Hstatus Hbody.
  rewrite getFacilityAvailability_completion by done.
  unfold availability_result. by rewrite Haxios, Hstatus, Hbody.
Qed.

(** The mocked backend of the design document: 200 with body
    [{"ok": true}] for facility 123 on 2024-01-15. *)
Lemma getFacilityAvailability_passes_body_through_witness :
  let w := world_of (smooth_session [session_cookie]) (Document sample_catalog)
             (Normal {| status := 200; statusText := "OK"; data := ok_body |}) in
  (getFacilityAvailability "123" "2024-01-15" w fresh).1
  = Normal (VObj [("success", VBool true);
                  ("data", VObj [("ok", VBool true)])]).
Proof.
  intros w.
  exact (getFacilityAvailability_passes_body_through "123" "2024-01-15" w fresh
           {| status := 200; statusText := "OK"; data := ok_body |}
           eq_refl eq_refl eq_refl eq_refl).
Defined.

(** C8 as stated fails: a 200 whose body is the JSON text [0] is not empty,
    yet the query reports a failure, because the code tests the body for
    truth and not for presence. *)
Lemma getFacilityAvailability_refuses_falsy_body :
  let response := {| status := 200; statusText := "OK"; data := VNum 0 |} in
  let w := world_of (smooth_session [session_cookie]) (Document sample_catalog)
             (Normal response) in
  status response = 200
  /\ data response <> VUndefined /\ data response <> VNull
  /\ data response <> VStr ""
  /\ (getFacilityAvailability "123" "2024-01-15" w fresh).1
     = Normal (VObj [("success", VBool false); ("error", VStr "HTTP 200: OK")]).
Proof. split_and!; try done. Qed.

(** C10.  From the same fields and with the same browser behaviour, the
    daily query for a date and the weekly query for the range from that
    date to itself send requests that agree on the method, on the path
    rest/reservation/resource/availability/daily/{facilityId}, on the
    headers and on every query parameter but the cache-busting token
    (each carries the clock of its own call); the timeouts are 10000 ms and
    15000 ms.  Either both are cut short by a rejecting refresh and send
    nothing, or each sends exactly that one request. *)
Theorem weekly_request_is_daily_request facilityId date w w' m :
  browser w = browser w' ->
  exists daily weekly,
    requests (calls (getFacilityAvailability facilityId date w m).2)
    = requests (calls m)
      ++ (if cut_short (cookies (this m)) (browser w) then [] else [daily])
    /\ requests (calls (getFacilityWeeklyAvailability facilityId date date w' m).2)
    = requests (calls m)
      ++ (if cut_short (cookies (this m)) (browser w) then [] else [weekly])
    /\ url daily
       = baseUrl +:+ "/rest/reservation/resource/availability/daily/"
         +:+ facilityId
    /\ own (params daily) "start_date" = Some date
    /\ own (params daily) "end_date" = Some date
    /\ own (params daily) "ui_random" = Some (Number_toString (now w))
    /\ own (params weekly) "ui_random" = Some (Number_toString (now w'))
    /\ differ_in_timeout_and_token daily weekly.
Proof.
  intros Hb.
  eexists (availability_request _ (now w) facilityId date date 10000),
          (availability_request _ (now w') facilityId date date 15000).
  rewrite getFacilityAvailability_requests,
    getFacilityWeeklyAvailability_requests, <- Hb.
  split_and!; try reflexivity.
  unfold differ_in_timeout_and_token. split_and!; try reflexivity.
  eexists [_; _; _; _; _], _, _. split_and!; try reflexivity.
  cbn. rewrite !not_elem_of_cons. split_and!; try done. apply not_elem_of_nil.
Qed.

Lemma weekly_request_is_daily_request_witness :
  let w := world_of (smooth_session [session_cookie]) (Document sample_catalog)
             (Normal {| status := 200; statusText := "OK"; data := ok_body |}) in
  exists daily weekly,
    requests (calls (getFacilityAvailability "123" "2024-01-15" w fresh).2)
    = [daily]
    /\ requests (calls (getFacilityWeeklyAvailability "123" "2024-01-15"
                         "2024-01-15" w fresh).2)
    = [weekly]
    /\ differ_in_timeout_and_token daily weekly.
Proof.
  intros w.
  destruct (weekly_request_is_daily_request "123" "2024-01-15" w w fresh eq_refl)
    as (daily & weekly & Hd & Hw & _ & _ & _ & _ & _ & Hdiff).
  exists daily, weekly. split_and!; [exact Hd | exact Hw | exact Hdiff].
Defined.

(** ** The jar over the life of a client *)

Ltac catalog_cases :=
  repeat first [progress run | progress cbn [fst snd] | case_match].

Lemma catalog_operations_keep_cookies op w m :
  match op with
  | GetAllFacilities | GetFacilitiesByCenter _ | GetUniqueCenters
  | ClearCache => cookies (this (perform op w m).2) = cookies (this m)
  | _ => True
  end.
Proof.
  destruct m as [[jar cache] made].
  destruct op; try done; cbn [perform].
  - unfold getAllFacilities. catalog_cases; by simplify_eq.
  - unfold getFacilitiesByCenter. catalog_cases; by simplify_eq.
  - unfold getUniqueCenters. catalog_cases; by simplify_eq.
  - unfold clearCache. catalog_cases; by simplify_eq.
Qed.

Lemma perform_cookies op w m :
  cookies (this (perform op w m).2)
  = jar_after op (browser w) (cookies (this m)).
Proof.
  pose proof (catalog_operations_keep_cookies op w m) as Hkeep.
  destruct op; try done; cbn [perform jar_after].
  - apply refreshCookies_cookies.
  - rewrite getFacilityAvailability_run.
    rewrite <- precondition_cookies.
    by destruct (precondition w m) as [[r|e] m1].
  - rewrite getFacilityWeeklyAvailability_run.
    rewrite <- precondition_cookies.
    by destruct (precondition w m) as [[r|e] m1].
Qed.

Lemma jar_after_cases op b jar :
  jar_after op b jar = jar
  \/ exists cs, harvested b = Some cs /\ jar_after op b jar = harvest cs.
Proof.
  destruct op; cbn; unfold after_precondition; eauto;
    destruct (harvested b) eqn:Hh; eauto; destruct jar; eauto.
Qed.

Lemma life_cookies ops m :
  cookies (this (life ops m)) = cookies (this m)
  \/ exists op w cs,
       (op, w) ∈ ops /\ harvested (browser w) = Some cs
       /\ cookies (this (life ops m)) = harvest cs.
Proof.
  revert m. induction ops as [|[op w] ops IH]; intros m; cbn [life]; [by left|].
  destruct (IH (perform op w m).2) as [Heq|(op' & w' & cs & Hin & Hh & Heq)].
  - rewrite Heq, perform_cookies.
    destruct (jar_after_cases op (browser w) (cookies (this m)))
      as [->|(cs & Hh & ->)]; [by left|].
    right. exists op, w, cs. split_and!; [left|done|done].
  - right. exists op', w', cs. split_and!; [by right|done|done].
Qed.

(** C9, as the code has it.  The jar is empty at construction.  Every
    operation leaves the jar that [jar_after] describes: a refresh whose
    session gets as far as the harvest replaces the jar by the harvest,
    whatever the jar held (nothing is merged), and a refresh that fails
    before the harvest leaves the jar in place; an availability query
    leaves the jar as its precondition step left it, whether the query
    then succeeds or fails, which is the jar it found unless that was empty
    and the refresh it triggered harvested; the catalog operations leave
    the jar alone.  So over any life of a client the jar is empty or the
    harvest of one of the browser sessions. *)
Theorem cookie_jar_lifetime :
  cookies constructor = []
  /\ (forall op w m,
        cookies (this (perform op w m).2)
        = jar_after op (browser w) (cookies (this m)))
  /\ (forall ops,
        cookies (this (life ops fresh)) = []
        \/ exists op w cs,
             (op, w) ∈ ops /\ harvested (browser w) = Some cs
             /\ cookies (this (life ops fresh)) = harvest cs).
Proof.
  split_and!; [done|apply perform_cookies|].
  intros ops. apply (life_cookies ops fresh).
Qed.

(** C9 as stated fails: the first daily query of a client finds the jar
    empty, the refresh it triggers harvests a cookie, the backend answers
    403; the query fails and the jar is not what it was. *)
Lemma failed_query_after_lazy_refresh_changes_jar :
  let w := world_of (smooth_session [session_cookie]) (Document sample_catalog)
             (Throw (Error "Request failed with status code 403")) in
  (getFacilityAvailability "123" "2024-01-15" w fresh).1
    = Normal (VObj [("success", VBool false);
                    ("error", VStr "Request failed with status code 403")])
  /\ cookies (this fresh) = []
  /\ cookies (this (getFacilityAvailability "123" "2024-01-15" w fresh).2)
     = [("JSESSIONID", "abc123")]
  /\ cookies (this (getFacilityAvailability "123" "2024-01-15" w fresh).2)
     <> cookies (this fresh).
Proof. split_and!; try reflexivity. discriminate. Qed.

(** ** The catalog loader *)

Section OwnProperties.
Context {A : Type}.
Implicit Types (props : list (string * A)) (k : string) (v : A).

Lemma own_assign props k v : own (assign props k v) k = Some v.
Proof.
  induction props as [|[k' v'] props IH]; cbn.
  - by rewrite String.eqb_refl.
  - destruct (String.eqb k' k) eqn:E; cbn; by rewrite E.
Qed.

Lemma own_assign_ne props k k' v :
  k' <> k -> own (assign props k v) k' = own props k'.
Proof.
  intros Hne.
  assert (String.eqb k k' = false) as Hkk' by (apply String.eqb_neq; congruence).
  induction props as [|[k0 v0] props IH]; cbn.
  - by rewrite Hkk'.
  - destruct (String.eqb k0 k) eqn:E; cbn; [|by rewrite IH].
    apply String.eqb_eq in E as ->. by rewrite Hkk'.
Qed.
End OwnProperties.

Lemma get_tagged centerName resource :
  record_like resource = true ->
  get (tagged centerName resource) "center_name" = Normal (VStr centerName)
  /\ forall k, k <> "center_name" ->
       get (tagged centerName resource) k = get resource k.
Proof.
  destruct resource as [| | | | | |props]; try done. intros _. cbn. split.
  - by rewrite own_assign.
  - intros k Hk. by rewrite own_assign_ne.
Qed.

(** The inner loop of the loader over the records of one center. *)
Lemma tag_center centerName resources facilities :
  forallb record_like resources = true ->
  for_each
    (fun facilities facility =>
       facility' ← set facility "center_name" (VStr centerName);
       mret (facilities ++ [facility']))
    facilities resources
  = Normal (facilities ++ (tagged centerName <$> resources)).
Proof.
  run. revert facilities.
  induction resources as [|resource resources IH]; intros facilities Hall.
  - cbn. by rewrite app_nil_r.
  - cbn in Hall. apply andb_prop in Hall as [Hr Hall].
    destruct resource; try done. cbn [for_each set]. run.
    rewrite IH by done. cbn. by rewrite <- app_assoc.
Qed.

(** The outer loop over the centers of a well-shaped catalog. *)
Lemma flatten_centers centers facilities :
  forallb (fun center => center_shape center.2) centers = true ->
  for_each
    (fun facilities '(centerName, centerData) =>
       listed ← get centerData "facilities";
       centerFacilities ← iterate (or_else listed (VArr [] []));
       for_each
         (fun facilities facility =>
            facility' ← set facility "center_name" (VStr centerName);
            mret (facilities ++ [facility']))
         facilities centerFacilities)
    facilities centers
  = Normal (facilities
            ++ (centers ≫= fun center =>
                  tagged center.1 <$> resources_of center.2)).
Proof.
  run. revert facilities.
  induction centers as [|[centerName centerData] centers IH];
    intros facilities Hall.
  - cbn. by rewrite app_nil_r.
  - cbn in Hall. apply andb_prop in Hall as [Hc Hall].
    destruct centerData as [| | | | | |props]; try done.
    cbn [for_each get]. run. cbn [center_shape snd fst] in Hc.
    cbn [list_bind resources_of fst snd].
    destruct (own props "facilities") as [[| | | | |resources [|]|]|];
      try done; cbn [default from_option id or_else truthy iterate]; run.
    + pose proof (tag_center centerName resources facilities Hc) as Htag.
      run in Htag. rewrite Htag, IH by done.
      cbn. by rewrite <- app_assoc.
    + cbn [for_each]. rewrite IH by done. done.
Qed.

Lemma length_listing centers : length (listing centers) = total_resources centers.
Proof.
  unfold listing, total_resources.
  induction centers as [|center centers IH]; [done|].
  cbn. rewrite length_app, length_fmap. by rewrite <- IH.
Qed.

Lemma listing_records centers :
  forallb (fun center => center_shape center.2) centers = true ->
  Forall (fun entry => record_like entry.2 = true) (listing centers).
Proof.
  unfold listing.
  induction centers as [|[centerName centerData] centers IH]; intros Hall.
  - constructor.
  - cbn in Hall. apply andb_prop in Hall as [Hc Hall].
    cbn. apply Forall_app. split; [|by apply IH].
    apply Forall_fmap. cbn.
    destruct centerData as [| | | | | |props]; try constructor.
    cbn in *. destruct (own props "facilities") as [[| | | | |resources [|]|]|];
      try done; try constructor.
    apply Forall_forall. intros resource Hin.
    rewrite forallb_forall in Hc. apply Hc. by apply list_elem_of_In.
Qed.

Lemma flattened_listing centers :
  (centers ≫= fun center => tagged center.1 <$> resources_of center.2)
  = (fun entry => tagged entry.1 entry.2) <$> listing centers.
Proof.
  unfold listing. induction centers as [|center centers IH]; [done|].
  cbn. rewrite fmap_app, <- IH. f_equal.
  rewrite <- list_fmap_compose. done.
Qed.

(** The loader over the entries of the parsed catalog, in the order
    [Object.entries] gives them: it succeeds and returns as many records
    as the entries list resources in total, entry after entry and resource
    after resource, each with the key of its entry in [center_name] and
    otherwise the raw record. *)
Lemma getAllFacilities_over_entries w m centers :
  catalog w = Document (VObj centers) ->
  catalog_shape (VObj centers) = true ->
  exists facilities,
    (getAllFacilities w m).1
      = Normal (VObj [("success", VBool true); ("data", VArr facilities [])])
    /\ (Legacy.getAllFacilities w m).1 = Normal (VArr facilities [])
    /\ length facilities = total_resources centers
    /\ Forall2
         (fun facility entry =>
            get facility "center_name" = Normal (VStr entry.1)
            /\ forall k, k <> "center_name" -> get facility k = get entry.2 k)
         facilities (listing centers).
Proof.
  intros Hcat Hshape. cbn [catalog_shape] in Hshape.
  pose proof (flatten_centers centers [] Hshape) as Hflat. run in Hflat.
  exists ((fun entry => tagged entry.1 entry.2) <$> listing centers).
  rewrite <- flattened_listing.
  destruct m as [[jar cache] made]. split_and!.
  - unfold getAllFacilities. run. rewrite Hcat. cbn [Object_entries].
    by rewrite Hflat.
  - unfold Legacy.getAllFacilities. run. rewrite Hcat. cbn [Object_entries].
    by rewrite Hflat.
  - by rewrite flattened_listing, length_fmap, length_listing.
  - rewrite flattened_listing. apply Forall2_fmap_l, Forall_Forall2_diag.
    eapply Forall_impl; [by apply listing_records|].
    intros [centerName resource] Hrecord. by apply get_tagged.
Qed.

(** *** The order of the centers

    What the parsed catalog enumerates, against the members of the
    document. *)

Section OwnPropertyOrder.
Context {A : Type}.
Implicit Types (members props : list (string * A)).

Lemma assign_fresh props k (v : A) :
  k ∉ keys props -> assign props k v = props ++ [(k, v)].
Proof.
  induction props as [|[k' v'] props IH]; intros Hfresh; [done|].
  cbn in Hfresh. apply not_elem_of_cons in Hfresh as [Hne Hfresh].
  cbn. destruct (String.eqb k' k) eqn:E.
  - apply String.eqb_eq in E. congruence.
  - by rewrite IH.
Qed.

Lemma created_from props members :
  NoDup (keys (props ++ members)) ->
  foldl (fun props member => assign props member.1 member.2) props members
  = props ++ members.
Proof.
  revert props.
  induction members as [|[k v] members IH]; intros props Hdistinct.
  - by rewrite app_nil_r.
  - cbn [foldl fst snd]. rewrite assign_fresh.
    + rewrite IH; rewrite <- app_assoc; done.
    + unfold keys in Hdistinct. rewrite fmap_app in Hdistinct.
      apply NoDup_app in Hdistinct as (_ & Hapart & _).
      intros Hin. apply (Hapart k Hin). cbn. left.
Qed.

(** A document that names no member twice creates its members as they
    come. *)
Lemma created_distinct members :
  NoDup (keys members) -> created members = members.
Proof. intros Hdistinct. unfold created. by rewrite created_from. Qed.

Lemma own_property_order_distinct members :
  NoDup (keys members) ->
  own_property_order members
  = merge_sort index_le (filter index_named members)
    ++ filter (fun member => ~ index_named member) members.
Proof.
  intros Hdistinct. unfold own_property_order. by rewrite created_distinct.
Qed.

Lemma own_property_order_permutation members :
  NoDup (keys members) -> own_property_order members ≡ₚ members.
Proof.
  intros Hdistinct. rewrite own_property_order_distinct by done.
  rewrite merge_sort_Permutation. apply filter_app_complement.
Qed.

Global Instance index_le_total : Total (@index_le A).
Proof. intros p q. unfold index_le. apply N.le_ge_cases. Qed.

Lemma filter_index_named_none members :
  Forall (fun member => array_index member.1 = None) members ->
  filter index_named members = []
  /\ filter (fun member => ~ index_named member) members = members.
Proof.
  induction 1 as [|member members Hnone _ [IHi IHn]]; [done|].
  assert (~ index_named member) as Hnot.
  { unfold index_named. rewrite Hnone. by intros [? ?]. }
  rewrite !filter_cons. destruct (decide (index_named member)); [done|].
  destruct (decide (~ index_named member)); [|done].
  by rewrite IHi, IHn.
Qed.

(** Without array indices among the names, the parsed object keeps the
    order of the document. *)
Lemma own_property_order_named members :
  NoDup (keys members) ->
  Forall (fun member => array_index member.1 = None) members ->
  own_property_order members = members.
Proof.
  intros Hdistinct Hnone. rewrite own_property_order_distinct by done.
  destruct (filter_index_named_none members Hnone) as [-> ->]. done.
Qed.
End OwnPropertyOrder.

Lemma total_resources_permutation centers centers' :
  centers ≡ₚ centers' -> total_resources centers = total_resources centers'.
Proof.
  unfold total_resources.
  induction 1 as [|center l l' _ IH|c c' l|l l' l'' _ IH _ IH']; cbn;
    [done|by rewrite IH|lia|congruence].
Qed.

Lemma catalog_shape_permutation centers centers' :
  centers ≡ₚ centers' ->
  catalog_shape (VObj centers) = true -> catalog_shape (VObj centers') = true.
Proof.
  intros Hperm. cbn [catalog_shape]. rewrite !forallb_forall.
  intros Hall center Hin. apply Hall.
  eapply Permutation_in; [symmetry; exact Hperm|exact Hin].
Qed.

(** C4, as it holds.  Take a catalog document of the expected shape whose
    top-level object has the members [members], no center named twice, and
    let the catalog the loader reads be the object parsed from it.  Then
    [getAllFacilities] succeeds and returns exactly as many records as the
    centers of the document list resources in total.  The records come
    center after center in the order [Object.entries] enumerates the
    parsed object, and resource after resource within a center: the
    centers whose key is an array index first, by ascending index, then
    the other centers in document order; this is document order when no
    key is an array index.  Each returned record carries in [center_name]
    the key of the center it was listed under, whether or not the raw
    record had such a field, and is otherwise the raw record.  The sibling
    [ApiService.js] returns the same list, bare. *)
Theorem getAllFacilities_flattens_in_enumeration_order w m members :
  NoDup (keys members) ->
  catalog_shape (VObj members) = true ->
  catalog w = Document (VObj (own_property_order members)) ->
  exists facilities,
    (getAllFacilities w m).1
      = Normal (VObj [("success", VBool true); ("data", VArr facilities [])])
    /\ (Legacy.getAllFacilities w m).1 = Normal (VArr facilities [])
    /\ length facilities = total_resources members
    /\ Forall2
         (fun facility entry =>
            get facility "center_name" = Normal (VStr entry.1)
            /\ forall k, k <> "center_name" -> get facility k = get entry.2 k)
         facilities (listing (own_property_order members))
    /\ (exists indexed,
          own_property_order members
          = indexed ++ filter (fun member => ~ index_named member) members
          /\ indexed ≡ₚ filter index_named members
          /\ Sorted index_le indexed)
    /\ (Forall (fun member => array_index member.1 = None) members ->
        own_property_order members = members).
Proof.
  intros Hdistinct Hshape Hcat.
  pose proof (own_property_order_permutation members Hdistinct) as Hperm.
  assert (catalog_shape (VObj (own_property_order members)) = true) as Hshape'.
  { eapply catalog_shape_permutation; [symmetry; exact Hperm|exact Hshape]. }
  destruct (getAllFacilities_over_entries w m _ Hcat Hshape')
    as (facilities & Hts & Hjs & Hlen & Hrecords).
  exists facilities. split_and!; try done.
  - rewrite Hlen. by apply total_resources_permutation.
  - exists (merge_sort index_le (filter index_named members)). split_and!.
    + by apply own_property_order_distinct.
    + apply merge_sort_Permutation.
    + apply Sorted_merge_sort, _.
  - by apply own_property_order_named.
Qed.

Lemma getAllFacilities_flattens_in_enumeration_order_witness :
  let members :=
    [("Burnhamthorpe CC", VObj [("facilities", VArr [gym; pool] [])]);
     ("10", VObj [("facilities", VArr [room] [])]);
     ("Closed Hall", VObj [("facilities", VArr [] [])]);
     ("7", VObj [])] in
  let w := world_of (smooth_session [])
             (Document (VObj (own_property_order members)))
             (Throw (Error "connect ECONNREFUSED")) in
  NoDup (keys members)
  /\ catalog_shape (VObj members) = true
  /\ total_resources members = 3%nat
  /\ keys (own_property_order members)
     = ["7"; "10"; "Burnhamthorpe CC"; "Closed Hall"]
  /\ exists facilities,
       (getAllFacilities w fresh).1
         = Normal (VObj [("success", VBool true); ("data", VArr facilities [])])
       /\ length facilities = 3%nat.
Proof.
  intros members w.
  assert (NoDup (keys members)) as Hdistinct.
  { apply (bool_decide_unpack _). vm_compute. exact I. }
  split_and!; [exact Hdistinct|reflexivity|reflexivity|reflexivity|].
  destruct (getAllFacilities_flattens_in_enumeration_order
              w fresh members Hdistinct eq_refl eq_refl)
    as (facilities & Hts & _ & Hlen & _).
  exists facilities. split; [exact Hts | exact Hlen].
Defined.

(** C4 as stated fails on a document with array indices among its center
    keys: the text lists the centers Zeta, 10 and 7 in this order, the
    parsed object enumerates 7, 10, Zeta, and so the records come out in
    another order than the concatenation over the centers in document
    order. *)
Lemma getAllFacilities_lists_index_keys_first :
  let members :=
    [("Zeta", VObj [("facilities", VArr [room] [])]);
     ("10", VObj [("facilities", VArr [pool] [])]);
     ("7", VObj [("facilities", VArr [gym] [])])] in
  let w := world_of (smooth_session [])
             (Document (VObj (own_property_order members)))
             (Throw (Error "connect ECONNREFUSED")) in
  let returned := [tagged "7" gym; tagged "10" pool; tagged "Zeta" room] in
  let in_document_order :=
    (fun entry => tagged entry.1 entry.2) <$> listing members in
  catalog_shape (VObj members) = true
  /\ keys members = ["Zeta"; "10"; "7"]
  /\ (getAllFacilities w fresh).1
     = Normal (VObj [("success", VBool true); ("data", VArr returned [])])
  /\ (Legacy.getAllFacilities w fresh).1 = Normal (VArr returned [])
  /\ in_document_order = [tagged "Zeta" room; tagged "10" pool; tagged "7" gym]
  /\ returned <> in_document_order.
Proof.
  intros members w returned in_document_order.
  split_and!; try reflexivity.
  vm_compute. discriminate.
Qed.

(** A raw record that already carries a [center_name] gets the key of its
    center all the same. *)
Example getAllFacilities_overwrites_center_name :
  let stray := VObj [("id", VStr "7"); ("center_name", VStr "Elsewhere")] in
  let w := world_of (smooth_session [])
             (Document (VObj [("Central Library",
                               VObj [("facilities", VArr [stray] [])])]))
             (Throw (Error "connect ECONNREFUSED")) in
  (getAllFacilities w fresh).1
  = Normal (succeeded
              (VArr [VObj [("id", VStr "7");
                           ("center_name", VStr "Central Library")]] [])).
Proof. reflexivity. Qed.

(** C7, as the code has it.  When the catalog file cannot be read or its
    text is not JSON, [getAllFacilities] returns the failure result with
    the message of the error, having read the file once; the fields of the
    client are untouched and nothing is retried. *)
Theorem getAllFacilities_surfaces_read_failure w m e :
  catalog w = Missing e \/ catalog w = Unparseable e ->
  getAllFacilities w m
  = (Normal (VObj [("success", VBool false);
                   ("error", VStr (described w "Failed to load facilities" e))]),
     {| this := this m; calls := calls m ++ [ReadFile facilitiesPath] |}).
Proof.
  intros Hcat. destruct m as [[jar cache] made].
  unfold getAllFacilities. run.
  by destruct Hcat as [-> | ->].
Qed.

Lemma getAllFacilities_surfaces_read_failure_witness :
  let e := Error "ENOENT: no such file or directory" in
  let w := world_of (smooth_session []) (Missing e)
             (Throw (Error "connect ECONNREFUSED")) in
  getAllFacilities w fresh
  = (Normal (VObj [("success", VBool false);
                   ("error", VStr "ENOENT: no such file or directory")]),
     {| this := constructor; calls := [ReadFile facilitiesPath] |}).
Proof.
  intros e w.
  exact (getAllFacilities_surfaces_read_failure w fresh e (or_introl eq_refl)).
Defined.

(** C7 as stated fails: the loader does not check the shape of what it
    parsed.  A document that is a JSON array, or an object whose center
    maps to a number, is not the expected mapping, and the loader returns
    a success with an empty list for either. *)
Lemma getAllFacilities_accepts_other_shapes :
  let elsewhere := Throw (Error "connect ECONNREFUSED") in
  let array_document := VArr [] [] in
  let number_center := VObj [("Central Library", VNum 5)] in
  catalog_shape array_document = false
  /\ (getAllFacilities
        (world_of (smooth_session []) (Document array_document) elsewhere)
        fresh).1
     = Normal (VObj [("success", VBool true); ("data", VArr [] [])])
  /\ catalog_shape number_center = false
  /\ (getAllFacilities
        (world_of (smooth_session []) (Document number_center) elsewhere)
        fresh).1
     = Normal (VObj [("success", VBool true); ("data", VArr [] [])]).
Proof. split_and!; reflexivity. Qed.

(** A parsed document is refused only when walking it raises, as for a
    center that maps to null. *)
Example getAllFacilities_null_center :
  let w := world_of (smooth_session [])
             (Document (VObj [("Central Library", VNull)]))
             (Throw (Error "connect ECONNREFUSED")) in
  (getAllFacilities w fresh).1
  = Normal (failed (wording w (ReadOfNullish "facilities"))).
Proof. reflexivity. Qed.

(** C5.  For a catalog document and a center name that is empty (the
    falsy string), or not a key of the document, or the key of a center
    whose record has no [facilities] or an empty [facilities] list,
    [getFacilitiesByCenter] returns the success with the empty list: one
    and the same result, so the caller cannot tell an unknown center from
    a center without resources. *)
Theorem getFacilitiesByCenter_empty w m centers centerName :
  catalog w = Document (VObj centers) ->
  centerName = ""
  \/ own centers centerName = None
  \/ (exists props,
        own centers centerName = Some (VObj props)
        /\ (own props "facilities" = None
            \/ own props "facilities" = Some (VArr [] []))) ->
  (getFacilitiesByCenter centerName w m).1
  = Normal (VObj [("success", VBool true); ("data", VArr [] [])]).
Proof.
  intros Hcat Hcase. destruct m as [[jar cache] made].
  unfold getFacilitiesByCenter. run. rewrite Hcat.
  cbn [truthy]. destruct (String.eqb centerName "") eqn:Hname; cbn [negb]; [done|].
  destruct Hcase as [->|[Habsent|(props & Hown & Hlisted)]]; [done| |].
  - unfold lookup_member. cbn [Object_entries]. rewrite Habsent.
    destruct (inherited w (VObj centers) centerName) eqn:Hinh;
      cbn [member_truthy negb]; rewrite ?Hinh; reflexivity.
  - unfold lookup_member. cbn [Object_entries]. rewrite Hown.
    cbn [member_truthy truthy negb member_facilities get].
    destruct Hlisted as [-> | ->]; reflexivity.
Qed.

Lemma getFacilitiesByCenter_empty_witness :
  let w := world_of (smooth_session []) (Document sample_catalog)
             (Throw (Error "connect ECONNREFUSED")) in
  let nothing := Normal (VObj [("success", VBool true); ("data", VArr [] [])]) in
  (getFacilitiesByCenter "" w fresh).1 = nothing
  /\ (getFacilitiesByCenter "Port Credit Arena" w fresh).1 = nothing
  /\ (getFacilitiesByCenter "toString" w fresh).1 = nothing
  /\ (getFacilitiesByCenter "Closed Hall" w fresh).1 = nothing
  /\ (getFacilitiesByCenter "New Site" w fresh).1 = nothing.
Proof.
  intros w nothing. split_and!.
  - exact (getFacilitiesByCenter_empty w fresh _ "" eq_refl (or_introl eq_refl)).
  - exact (getFacilitiesByCenter_empty w fresh _ "Port Credit Arena" eq_refl
             (or_intror (or_introl eq_refl))).
  - exact (getFacilitiesByCenter_empty w fresh _ "toString" eq_refl
             (or_intror (or_introl eq_refl))).
  - exact (getFacilitiesByCenter_empty w fresh _ "Closed Hall" eq_refl
             (or_intror (or_intror
                (ex_intro _ [("facilities", VArr [] [])]
                   (conj eq_refl (or_intror eq_refl)))))).
  - exact (getFacilitiesByCenter_empty w fresh _ "New Site" eq_refl
             (or_intror (or_intror
                (ex_intro _ [] (conj eq_refl (or_introl eq_refl)))))).
Defined.

(** A center that lists resources gets them back, each with its key. *)
Example getFacilitiesByCenter_listed :
  let w := world_of (smooth_session []) (Document sample_catalog)
             (Throw (Error "connect ECONNREFUSED")) in
  (getFacilitiesByCenter "Central Library" w fresh).1
  = Normal (succeeded (VArr [tagged "Central Library" room] [])).
Proof. reflexivity. Qed.

(** C6.  For a catalog document, [getUniqueCenters] succeeds with the
    top-level keys of the document, each once, in ascending order of code
    units (upper case before lower case).  The keys of an object are
    distinct, which is the one thing assumed of the document. *)
Theorem getUniqueCenters_sorted_keys w m centers :
  catalog w = Document (VObj centers) ->
  NoDup (keys centers) ->
  exists names,
    (getUniqueCenters w m).1
      = Normal (VObj [("success", VBool true);
                      ("data", VArr (VStr <$> names) [])])
    /\ names ≡ₚ keys centers
    /\ Sorted code_unit_le names
    /\ NoDup names.
Proof.
  intros Hcat Hkeys. exists (sort (keys centers)).
  destruct m as [[jar cache] made]. split_and!.
  - unfold getUniqueCenters. run. by rewrite Hcat.
  - apply sort_permutation.
  - apply sort_sorted.
  - by rewrite sort_permutation.
Qed.

Lemma getUniqueCenters_sorted_keys_witness :
  let w := world_of (smooth_session [])
             (Document (VObj [("Meadowvale CC", VObj []);
                              ("central library", VObj []);
                              ("Burnhamthorpe CC", VObj [])]))
             (Throw (Error "connect ECONNREFUSED")) in
  NoDup ["Meadowvale CC"; "central library"; "Burnhamthorpe CC"]
  /\ exists names,
       (getUniqueCenters w fresh).1
         = Normal (VObj [("success", VBool true);
                         ("data", VArr (VStr <$> names) [])])
       /\ names ≡ₚ ["Meadowvale CC"; "central library"; "Burnhamthorpe CC"]
       /\ Sorted code_unit_le names.
Proof.
  intros w.
  assert (NoDup ["Meadowvale CC"; "central library"; "Burnhamthorpe CC"])
    as Hkeys by (apply (bool_decide_unpack _); vm_compute; exact I).
  split; [exact Hkeys|].
  destruct (getUniqueCenters_sorted_keys w fresh _ eq_refl Hkeys)
    as (names & Hrun & Hperm & Hsorted & _).
  exists names. split_and!; [exact Hrun | exact Hperm | exact Hsorted].
Defined.

Example getUniqueCenters_order :
  let w := world_of (smooth_session [])
             (Document (VObj [("Meadowvale CC", VObj []);
                              ("central library", VObj []);
                              ("Burnhamthorpe CC", VObj [])]))
             (Throw (Error "connect ECONNREFUSED")) in
  (getUniqueCenters w fresh).1
  = Normal (succeeded (VArr [VStr "Burnhamthorpe CC"; VStr "Meadowvale CC";
                             VStr "central library"] [])).
Proof. reflexivity. Qed.


(** * Further properties of the client *)

(** ** The browser session of an acquisition *)

(** X1.  [refreshCookies] launches one browser.  When the launch fails
    nothing else is called.  Otherwise the page calls are made in order up
    to and including the first that throws, none after it, and the browser
    is closed exactly once, last, on every path. *)
Theorem refreshCookies_closes_what_it_launched w m :
  calls (refreshCookies w m).2
  = calls m
    ++ Launch
       :: match Puppeteer.launch (browser w) with
          | Normal _ => take (reached (browser w)) page_script ++ [Close]
          | Throw _ => []
          end.
Proof.
  destruct m as [jar made].
  browser_cases w; unfold refreshCookies; run;
    rewrite <- ?app_assoc; reflexivity.
Qed.

(** X2.  When [browser.close()] throws in the [finally], its exception
    replaces whatever the acquisition came to: [refreshCookies] rejects
    with it, even after a harvest, and the jar the harvest stored stays. *)
Theorem refreshCookies_close_failure_masks_result w m e :
  Puppeteer.launch (browser w) = Normal () ->
  Puppeteer.close (browser w) = Throw e ->
  (refreshCookies w m).1 = Throw e
  /\ (Legacy.refreshCookies w m).1 = Throw e
  /\ cookies (this (refreshCookies w m).2)
     = match harvested (browser w) with
       | Some cs => harvest cs
       | None => cookies (this m)
       end.
Proof.
  intros Hlaunch Hclose. split_and!; [| |apply refreshCookies_cookies].
  - rewrite refreshCookies_completion. unfold escapes.
    by rewrite Hlaunch, Hclose.
  - destruct m as [jar made]. revert Hlaunch Hclose.
    browser_cases w; cbn; try done; intros _ [= ->];
      unfold Legacy.refreshCookies, Legacy.message_of; run; try reflexivity.
    all: match goal with
         | |- context [match ?x with ErrorObject _ => _ | _ => _ end] =>
             destruct x as [?|?|[]]
         end; reflexivity.
Qed.

Lemma refreshCookies_close_failure_masks_result_witness :
  let e := Error "Protocol error: Target closed" in
  let b := {| Puppeteer.launch := Normal ();
              Puppeteer.newPage := Normal ();
              Puppeteer.setUserAgent := Normal ();
              Puppeteer.goto := Normal ();
              Puppeteer.cookies := Normal [session_cookie];
              Puppeteer.close := Throw e |} in
  let w := world_of b (Document sample_catalog)
             (Throw (Error "connect ECONNREFUSED")) in
  (refreshCookies w fresh).1 = Throw e
  /\ cookies (this (refreshCookies w fresh).2) = [("JSESSIONID", "abc123")].
Proof.
  intros e b w.
  destruct (refreshCookies_close_failure_masks_result w fresh e eq_refl eq_refl)
    as (Hts & _ & Hjar).
  split; [exact Hts | exact Hjar].
Defined.

(** ** The jar as a map *)

Lemma keys_assign {A} (props : list (string * A)) k v :
  keys (assign props k v)
  = if bool_decide (k ∈ keys props) then keys props else keys props ++ [k].
Proof.
  unfold keys. induction props as [|[k' v'] props IH]; cbn; [done|].
  destruct (String.eqb k' k) eqn:E; cbn.
  - apply String.eqb_eq in E as ->.
    rewrite bool_decide_true by left. done.
  - apply String.eqb_neq in E. rewrite IH.
    destruct (bool_decide_reflect (k ∈ props.*1)) as [Hin|Hin].
    + rewrite bool_decide_true by (by right). done.
    + rewrite bool_decide_false; [done|].
      rewrite elem_of_cons. intros [->|?]; done.
Qed.

Lemma NoDup_keys_assign {A} (props : list (string * A)) k v :
  NoDup (keys props) -> NoDup (keys (assign props k v)).
Proof.
  intros Hnd. rewrite keys_assign. case_bool_decide; [done|].
  apply NoDup_app. split_and!; [done| |apply NoDup_singleton].
  intros x Hx Hk. apply list_elem_of_singleton in Hk as ->. done.
Qed.

Lemma elem_of_keys_assign {A} (props : list (string * A)) k v x :
  x ∈ keys (assign props k v) <-> x = k \/ x ∈ keys props.
Proof.
  rewrite keys_assign. case_bool_decide as Hin.
  - split; [by right|]. by intros [->|?].
  - rewrite elem_of_app, list_elem_of_singleton. tauto.
Qed.

Lemma foldl_store_lookup acc cs name :
  name <> "__proto__" ->
  own (foldl store acc cs) name
  = match last_value cs name with
    | Some v => Some v
    | None => own acc name
    end.
Proof.
  intros Hname. unfold last_value.
  revert acc. induction cs as [|c cs IH]; intros acc; cbn [foldl]; [done|].
  rewrite IH. rewrite filter_cons.
  destruct (decide (Cookie.name c = name)) as [Hc|Hc].
  - rewrite last_cons.
    destruct (last (filter (fun c0 => Cookie.name c0 = name) cs)); cbn; [done|].
    unfold store. rewrite Hc.
    apply String.eqb_neq in Hname as ->. by rewrite own_assign.
  - destruct (last (filter (fun c0 => Cookie.name c0 = name) cs)); cbn; [done|].
    unfold store. destruct (String.eqb (Cookie.name c) "__proto__"); [done|].
    by rewrite own_assign_ne.
Qed.

Lemma foldl_store_keys acc cs :
  NoDup (keys acc) -> "__proto__" ∉ keys acc ->
  NoDup (keys (foldl store acc cs)) /\ "__proto__" ∉ keys (foldl store acc cs).
Proof.
  revert acc. induction cs as [|c cs IH]; intros acc Hnd Hproto; [done|].
  cbn [foldl]. apply IH; unfold store.
  - destruct (String.eqb (Cookie.name c) "__proto__"); [done|].
    by apply NoDup_keys_assign.
  - destruct (String.eqb (Cookie.name c) "__proto__") eqn:E; [done|].
    apply String.eqb_neq in E.
    rewrite elem_of_keys_assign. intros [?|?]; congruence.
Qed.

(** X3.  The jar built from the harvested cookies has one entry for each
    cookie name: looking a name up gives the value of the last harvested
    cookie of that name, and nothing when no cookie has it.  A cookie
    called [__proto__] is never stored. *)
Theorem harvest_keeps_last_value cs :
  NoDup (keys (harvest cs))
  /\ own (harvest cs) "__proto__" = None
  /\ forall name,
       name <> "__proto__" -> own (harvest cs) name = last_value cs name.
Proof.
  destruct (foldl_store_keys [] cs) as [Hnd Hproto];
    [constructor|apply not_elem_of_nil|].
  split_and!; [done| |].
  - destruct (own (harvest cs) "__proto__") eqn:Hown; [|done].
    exfalso. apply Hproto. clear -Hown.
    unfold harvest in *. induction (foldl store [] cs) as [|[k v] l IH]; [done|].
    cbn in *. destruct (String.eqb k "__proto__") eqn:E.
    + apply String.eqb_eq in E as ->. left.
    + right. by apply IH.
  - intros name Hname. unfold harvest.
    rewrite foldl_store_lookup by done. by destruct (last_value cs name).
Qed.

Lemma harvest_keeps_last_value_witness :
  let cs := [ {| Cookie.name := "sid"; Cookie.value := "1" |};
              {| Cookie.name := "__proto__"; Cookie.value := "x" |};
              {| Cookie.name := "lang"; Cookie.value := "en" |};
              {| Cookie.name := "sid"; Cookie.value := "2" |} ] in
  own (harvest cs) "sid" = Some "2"
  /\ own (harvest cs) "lang" = Some "en"
  /\ own (harvest cs) "theme" = None.
Proof.
  intros cs.
  destruct (harvest_keeps_last_value cs) as (_ & _ & Hlookup).
  split_and!.
  - exact (Hlookup "sid" ltac:(discriminate)).
  - exact (Hlookup "lang" ltac:(discriminate)).
  - exact (Hlookup "theme" ltac:(discriminate)).
Defined.

(** ** Availability queries and the jar they find *)

Lemma getFacilityWeeklyAvailability_completion facilityId startDate endDate w m :
  cut_short (cookies (this m)) (browser w) = false ->
  (getFacilityWeeklyAvailability facilityId startDate endDate w m).1
  = Normal (availability_result w "Failed to get weekly availability"
              (availability_request
                 (after_precondition (cookies (this m)) (browser w))
                 (now w) facilityId startDate endDate 15000)).
Proof.
  intros Hcut. rewrite getFacilityWeeklyAvailability_run.
  pose proof (precondition_cookies w m) as Hc.
  pose proof (precondition_completion w m) as Hn.
  rewrite Hcut in Hn.
  destruct (precondition w m) as [[r|e] m1]; cbn in *; [|done].
  by rewrite Hc.
Qed.

Lemma query_launches op w m :
  is_query op = true ->
  launches (calls (perform op w m).2)
  = match cookies (this m) with
    | [] => S (launches (calls m))
    | _ => launches (calls m)
    end.
Proof.
  intros Hq. rewrite <- (precondition_launches w m).
  destruct op; try done; cbn [perform].
  - rewrite getFacilityAvailability_run.
    destruct (precondition w m) as [[r|e] m1]; cbn [snd calls]; [|done].
    apply launches_snoc_request.
  - rewrite getFacilityWeeklyAvailability_run.
    destruct (precondition w m) as [[r|e] m1]; cbn [snd calls]; [|done].
    apply launches_snoc_request.
Qed.

(** X4.  A query that finds cookies in the jar uses them as they are: it
    launches no browser, sends one request whose Cookie header lists the
    entries of the jar as name=value joined by "; " in the order of the
    jar, leaves the jar alone and does not reject. *)
Theorem query_with_cookies_sends_them facilityId date w m :
  cookies (this m) <> [] ->
  let after := getFacilityAvailability facilityId date w m in
  let header :=
    join "; " ((fun '(name, value) => name +:+ "=" +:+ value) <$> cookies (this m)) in
  launches (calls after.2) = launches (calls m)
  /\ (exists config,
        requests (calls after.2) = requests (calls m) ++ [config]
        /\ own (headers config) "Cookie" = Some header)
  /\ cookies (this after.2) = cookies (this m)
  /\ is_Normal after.1 = true.
Proof.
  intros Hjar after header. subst after header.
  assert (cut_short (cookies (this m)) (browser w) = false) as Hcut
    by (unfold cut_short; by destruct (cookies (this m))).
  assert (after_precondition (cookies (this m)) (browser w) = cookies (this m))
    as Hafter by (unfold after_precondition; by destruct (cookies (this m))).
  split_and!.
  - pose proof (query_launches (GetFacilityAvailability facilityId date) w m
                  eq_refl) as Hl.
    cbn [perform] in Hl. rewrite Hl. by destruct (cookies (this m)).
  - eexists. rewrite getFacilityAvailability_requests, Hcut, Hafter.
    split; [reflexivity|]. by destruct (cookies (this m)).
  - pose proof (perform_cookies (GetFacilityAvailability facilityId date) w m)
      as Hc.
    cbn [perform jar_after] in Hc. by rewrite Hc.
  - by rewrite getFacilityAvailability_completion.
Qed.

Lemma query_with_cookies_sends_them_witness :
  let w := world_of (no_browser (Error "Failed to launch the browser process!"))
             (Document sample_catalog)
             (Normal {| status := 200; statusText := "OK"; data := ok_body |}) in
  let m := {| this := {| cookies := [("JSESSIONID", "abc123"); ("lang", "en")];
                         facilitiesCache := None |};
              calls := [] |} in
  launches (calls (getFacilityAvailability "123" "2024-01-15" w m).2) = 0%nat
  /\ exists config,
       requests (calls (getFacilityAvailability "123" "2024-01-15" w m).2)
       = [config]
       /\ own (headers config) "Cookie" = Some "JSESSIONID=abc123; lang=en".
Proof.
  intros w m.
  destruct (query_with_cookies_sends_them "123" "2024-01-15" w m
              ltac:(discriminate)) as (Hl & (config & Hr & Hh) & _ & _).
  split; [exact Hl|]. exists config. split; [exact Hr | exact Hh].
Defined.

(** X5.  While acquisitions yield no cookie (they fail before the harvest,
    or the site sets none), the jar stays empty and every availability
    query launches a browser of its own: nothing remembers that the last
    acquisition was fruitless. *)
Theorem fruitless_acquisitions_are_repeated ops m :
  cookies (this m) = [] ->
  Forall (fun step => is_query step.1 = true
                      /\ after_precondition [] (browser step.2) = []) ops ->
  launches (calls (life ops m)) = (launches (calls m) + length ops)%nat
  /\ cookies (this (life ops m)) = [].
Proof.
  intros Hjar Hops. revert m Hjar.
  induction Hops as [|[op w] ops [Hq Hnone] _ IH]; intros m Hjar; cbn [life].
  - split; [cbn [length]; lia|done].
  - cbn [fst snd] in *.
    assert (cookies (this (perform op w m).2) = []) as Hjar'.
    { rewrite perform_cookies, Hjar. by destruct op. }
    destruct (IH _ Hjar') as [-> ->]. split; [|done].
    rewrite query_launches, Hjar by done. cbn [length]. lia.
Qed.

Lemma fruitless_acquisitions_are_repeated_witness :
  let timeout := Error "Navigation timeout of 30000 ms exceeded" in
  let w := world_of (navigation_timeout timeout) (Document sample_catalog)
             (Throw (Error "Request failed with status code 403")) in
  let ops := [(GetFacilityAvailability "123" "2024-01-15", w);
              (GetFacilityWeeklyAvailability "123" "2024-01-15" "2024-01-21", w);
              (GetFacilityAvailability "124" "2024-01-15", w)] in
  launches (calls (life ops fresh)) = 3%nat
  /\ cookies (this (life ops fresh)) = [].
Proof.
  intros timeout w ops.
  apply (fruitless_acquisitions_are_repeated ops fresh eq_refl).
  repeat constructor.
Defined.

(** ** What the queries make of the backend's answer *)





(** X8.  The weekly query hands a 200 with a truthy body through as it
    is, as the daily query does. *)
Theorem getFacilityWeeklyAvailability_passes_body_through
    facilityId startDate endDate w m response :
  cut_short (cookies (this m)) (browser w) = false ->
  axios w (availability_request
             (after_precondition (cookies (this m)) (browser w))
             (now w) facilityId startDate endDate 15000)
  = Normal response ->
  status response = 200 ->
  truthy (data response) = true ->
  (getFacilityWeeklyAvailability facilityId startDate endDate w m).1
  = Normal (VObj [("success", VBool true); ("data", data response)]).
Proof.
  intros Hcut Haxios Hstatus Hbody.
  rewrite getFacilityWeeklyAvailability_completion by done.
  unfold availability_result. by rewrite Haxios, Hstatus, Hbody.
Qed.

Lemma getFacilityWeeklyAvailability_passes_body_through_witness :
  let w := world_of (smooth_session [session_cookie]) (Document sample_catalog)
             (Normal {| status := 200; statusText := "OK"; data := ok_body |}) in
  (getFacilityWeeklyAvailability "123" "2024-01-15" "2024-01-21" w fresh).1
  = Normal (VObj [("success", VBool true);
                  ("data", VObj [("ok", VBool true)])]).
Proof.
  intros w.
  exact (getFacilityWeeklyAvailability_passes_body_through
           "123" "2024-01-15" "2024-01-21" w fresh
           {| status := 200; statusText := "OK"; data := ok_body |}
           eq_refl eq_refl eq_refl eq_refl).
Defined.

(** ** The catalog, center by center *)

Lemma forEach_tag_records resources centerName :
  forallb record_like resources = true ->
  forEach_tag (VArr resources []) centerName
  = Normal (VArr (tagged centerName <$> resources) []).
Proof.
  intros Hrecords. unfold forEach_tag. cbn [own].
  pose proof (tag_center centerName resources [] Hrecords) as Htag.
  run in Htag. run. by rewrite Htag.
Qed.

Lemma getFacilitiesByCenter_shaped w m centers centerName :
  catalog w = Document (VObj centers) ->
  centerName <> "" ->
  match own centers centerName with
  | Some centerData => center_shape centerData = true
  | None => True
  end ->
  let resources :=
    match own centers centerName with
    | Some centerData => resources_of centerData
    | None => []
    end in
  (getFacilitiesByCenter centerName w m).1
  = Normal (VObj [("success", VBool true);
                  ("data", VArr (tagged centerName <$> resources) [])])
  /\ (Legacy.getFacilitiesByCenter centerName w m).1
  = Normal (VArr (tagged centerName <$> resources) []).
Proof.
  intros Hcat Hname Hshape resources. subst resources.
  destruct m as [[jar cache] made].
  apply String.eqb_neq in Hname.
  unfold getFacilitiesByCenter, Legacy.getFacilitiesByCenter. run.
  rewrite Hcat. cbn [truthy]. rewrite Hname. cbn [negb].
  unfold lookup_member. cbn [Object_entries].
  destruct (own centers centerName) as [centerData|].
  - destruct centerData as [| | | | | |props]; try done.
    cbn [center_shape] in Hshape.
    cbn [member_truthy truthy negb member_facilities get resources_of].
    destruct (own props "facilities") as [[| | | | |resources [|]|]|];
      try done; cbn [default from_option id or_else truthy].
    by rewrite forEach_tag_records.
  - destruct (inherited w (VObj centers) centerName) eqn:Hinh;
      cbn [member_truthy negb]; rewrite ?Hinh; done.
Qed.

Lemma own_center_shape centers centerName centerData :
  forallb (fun center => center_shape center.2) centers = true ->
  own centers centerName = Some centerData ->
  center_shape centerData = true.
Proof.
  intros Hshape Hcenter. rewrite forallb_forall in Hshape.
  induction centers as [|[k v] centers IH]; [done|]. cbn in Hcenter.
  destruct (String.eqb k centerName).
  - injection Hcenter as <-. apply (Hshape (k, v)). by left.
  - apply IH; [|done]. intros x Hx. apply Hshape. by right.
Qed.

(** X9.  For a center name that is a key of the document, whose record
    lists resource records, [getFacilitiesByCenter] returns those records
    in order, each with [center_name] set to the name asked for; the
    sibling returns the same array, bare. *)
Theorem getFacilitiesByCenter_lists_center w m centers centerName props resources :
  catalog w = Document (VObj centers) ->
  centerName <> "" ->
  own centers centerName = Some (VObj props) ->
  own props "facilities" = Some (VArr resources []) ->
  forallb record_like resources = true ->
  (getFacilitiesByCenter centerName w m).1
  = Normal (VObj [("success", VBool true);
                  ("data", VArr (tagged centerName <$> resources) [])])
  /\ (Legacy.getFacilitiesByCenter centerName w m).1
  = Normal (VArr (tagged centerName <$> resources) []).
Proof.
  intros Hcat Hname Hcenter Hlisted Hrecords.
  pose proof (getFacilitiesByCenter_shaped w m centers centerName Hcat Hname)
    as Hrun.
  rewrite Hcenter in Hrun. cbn [center_shape resources_of] in Hrun.
  rewrite Hlisted in Hrun. by apply Hrun.
Qed.

Lemma getFacilitiesByCenter_lists_center_witness :
  let w := world_of (smooth_session []) (Document sample_catalog)
             (Throw (Error "connect ECONNREFUSED")) in
  (getFacilitiesByCenter "Burnhamthorpe CC" w fresh).1
  = Normal (VObj [("success", VBool true);
                  ("data",
                   VArr [tagged "Burnhamthorpe CC" gym;
                         tagged "Burnhamthorpe CC" pool] [])]).
Proof.
  intros w.
  assert ("Burnhamthorpe CC" <> "") as Hname by discriminate.
  destruct (getFacilitiesByCenter_lists_center w fresh _ "Burnhamthorpe CC"
              [("facilities", VArr [gym; pool] [])] [gym; pool]
              eq_refl Hname eq_refl eq_refl eq_refl) as [Hts _].
  exact Hts.
Defined.

Lemma own_None_not_key {A} (props : list (string * A)) k :
  own props k = None <-> k ∉ keys props.
Proof.
  unfold keys. induction props as [|[k' v] props IH]; cbn.
  - split; [intros _; apply not_elem_of_nil|done].
  - rewrite not_elem_of_cons. destruct (String.eqb k' k) eqn:E.
    + apply String.eqb_eq in E as ->. split; [done|]. by intros [? _].
    + apply String.eqb_neq in E. rewrite IH. split; [|tauto].
      intros ?. split; [congruence|done].
Qed.

Lemma filter_listed_same (centerName : string) (resources : list value) :
  filter (fun entry : string * value => entry.1 = centerName)
    ((fun resource => (centerName, resource)) <$> resources)
  = (fun resource => (centerName, resource)) <$> resources.
Proof.
  induction resources as [|r rs IH]; [done|].
  rewrite fmap_cons, filter_cons_True by done. by rewrite IH.
Qed.

Lemma filter_listed_other (k centerName : string) (resources : list value) :
  k <> centerName ->
  filter (fun entry : string * value => entry.1 = centerName)
    ((fun resource => (k, resource)) <$> resources)
  = [].
Proof.
  intros Hne. induction resources as [|r rs IH]; [done|].
  rewrite fmap_cons, filter_cons_False by done. done.
Qed.

(** The resources listed under one key, in a catalog whose keys are
    distinct. *)
Lemma filter_listing centers centerName :
  NoDup (keys centers) ->
  filter (fun entry => entry.1 = centerName) (listing centers)
  = match own centers centerName with
    | Some centerData => (fun resource => (centerName, resource))
                         <$> resources_of centerData
    | None => []
    end.
Proof.
  unfold listing, keys.
  induction centers as [|[k centerData] centers IH]; intros Hnd; [done|].
  cbn [fmap list_fmap fst] in Hnd. apply NoDup_cons in Hnd as [Hk Hnd].
  cbn [mbind list_bind own fst snd]. rewrite filter_app, IH by done.
  destruct (String.eqb k centerName) eqn:E.
  - apply String.eqb_eq in E as ->.
    apply (own_None_not_key centers) in Hk.
    by rewrite Hk, app_nil_r, filter_listed_same.
  - apply String.eqb_neq in E. by rewrite filter_listed_other.
Qed.

(** X10.  On a catalog of the expected shape with distinct keys, asking
    for one center gives exactly the part of the full list that is listed
    under that key, in the same order and with the same records; for a
    name that is no key, that part is empty.  The name must not be the
    empty string: a center whose key is empty is in the full list and
    cannot be asked for. *)
Theorem getFacilitiesByCenter_restricts_getAllFacilities w m centers centerName :
  catalog w = Document (VObj centers) ->
  catalog_shape (VObj centers) = true ->
  NoDup (keys centers) ->
  centerName <> "" ->
  let record := fun entry : string * value => tagged entry.1 entry.2 in
  (getAllFacilities w m).1
  = Normal (succeeded (VArr (record <$> listing centers) []))
  /\ (getFacilitiesByCenter centerName w m).1
  = Normal (succeeded
              (VArr (record <$> filter (fun entry => entry.1 = centerName)
                                       (listing centers)) [])).
Proof.
  intros Hcat Hshape Hnd Hname record. subst record.
  cbn [catalog_shape] in Hshape. split.
  - pose proof (flatten_centers centers [] Hshape) as Hflat. run in Hflat.
    destruct m as [[jar cache] made].
    unfold getAllFacilities. run. rewrite Hcat. cbn [Object_entries].
    by rewrite Hflat, flattened_listing.
  - rewrite filter_listing by done.
    destruct (getFacilitiesByCenter_shaped w m centers centerName Hcat Hname)
      as [-> _].
    + destruct (own centers centerName) eqn:Hcenter; [|done].
      by eapply own_center_shape.
    + destruct (own centers centerName); [|done].
      by rewrite <- list_fmap_compose.
Qed.

Lemma getFacilitiesByCenter_restricts_getAllFacilities_witness :
  let w := world_of (smooth_session []) (Document sample_catalog)
             (Throw (Error "connect ECONNREFUSED")) in
  (getAllFacilities w fresh).1
  = Normal (succeeded
              (VArr [tagged "Burnhamthorpe CC" gym;
                     tagged "Burnhamthorpe CC" pool;
                     tagged "Central Library" room] []))
  /\ (getFacilitiesByCenter "Central Library" w fresh).1
  = Normal (succeeded (VArr [tagged "Central Library" room] [])).
Proof.
  intros w.
  assert (NoDup ["Burnhamthorpe CC"; "Central Library"; "Closed Hall"; "New Site"])
    as Hkeys by (apply (bool_decide_unpack _); vm_compute; exact I).
  assert ("Central Library" <> "") as Hname by discriminate.
  exact (getFacilitiesByCenter_restricts_getAllFacilities w fresh _
           "Central Library" eq_refl eq_refl Hkeys Hname).
Defined.

(** ** What the catalog operations never do *)

(** X11.  Whatever the catalog file holds, and whether or not it can be
    read, the three catalog operations do not reject, read the file once
    and call nothing else, and leave the jar alone. *)
Theorem catalog_operations_never_reject op w m :
  is_catalog_operation op = true ->
  is_Normal (perform op w m).1 = true
  /\ calls (perform op w m).2 = calls m ++ [ReadFile facilitiesPath]
  /\ cookies (this (perform op w m).2) = cookies (this m).
Proof.
  intros Hop. destruct m as [[jar cache] made].
  destruct op; try done; cbn [perform].
  - unfold getAllFacilities. catalog_cases; by simplify_eq.
  - unfold getFacilitiesByCenter. catalog_cases; by simplify_eq.
  - unfold getUniqueCenters. catalog_cases; by simplify_eq.
Qed.

Lemma catalog_operations_never_reject_witness :
  let w := world_of (smooth_session [])
             (Document (VObj [("Central Library", VNull)]))
             (Throw (Error "connect ECONNREFUSED")) in
  is_Normal (getAllFacilities w fresh).1 = true
  /\ calls (getAllFacilities w fresh).2 = [ReadFile facilitiesPath].
Proof.
  intros w.
  destruct (catalog_operations_never_reject GetAllFacilities w fresh eq_refl)
    as (Hn & Hc & _).
  split; [exact Hn | exact Hc].
Defined.

(** X12.  When the catalog file cannot be read or parsed, the operations
    that return a list report the failure with an empty list beside the
    message: [{success: false, data: [], error}].  The sibling returns the
    bare empty list, the same as for a center without resources. *)
Theorem list_operations_fail_with_empty_list w m e centerName :
  catalog w = Missing e \/ catalog w = Unparseable e ->
  let failure message :=
    Normal (VObj [("success", VBool false);
                  ("data", VArr [] []);
                  ("error", VStr message)]) in
  (getFacilitiesByCenter centerName w m).1
  = failure (described w "Failed to load facilities by center" e)
  /\ (getUniqueCenters w m).1
  = failure (described w "Failed to load centers" e)
  /\ (Legacy.getFacilitiesByCenter centerName w m).1 = Normal (VArr [] [])
  /\ (Legacy.getUniqueCenters w m).1 = Normal (VArr [] []).
Proof.
  intros Hcat failure. subst failure. destruct m as [[jar cache] made].
  unfold getFacilitiesByCenter, getUniqueCenters,
    Legacy.getFacilitiesByCenter, Legacy.getUniqueCenters. run.
  by destruct Hcat as [-> | ->].
Qed.

Lemma list_operations_fail_with_empty_list_witness :
  let e := Error "Unexpected end of JSON input" in
  let w := world_of (smooth_session []) (Unparseable e)
             (Throw (Error "connect ECONNREFUSED")) in
  (getUniqueCenters w fresh).1
  = Normal (VObj [("success", VBool false);
                  ("data", VArr [] []);
                  ("error", VStr "Unexpected end of JSON input")]).
Proof.
  intros e w.
  destruct (list_operations_fail_with_empty_list w fresh e "Central Library"
              (or_intror eq_refl)) as (_ & Hcenters & _).
  exact Hcenters.
Defined.


(** ** The facilities cache *)

Lemma precondition_independent w m m' :
  cookies (this m) = cookies (this m') ->
  (precondition w m).1 = (precondition w m').1
  /\ cookies (this (precondition w m).2) = cookies (this (precondition w m').2).
Proof.
  intros Hjar. rewrite !precondition_cookies, Hjar. split; [|done].
  unfold precondition. rewrite <- Hjar.
  destruct (cookies (this m)) eqn:Hm; [|done].
  rewrite !refreshCookies_completion, !refreshCookies_cookies, <- Hjar, Hm.
  done.
Qed.

(** X13.  What an operation returns depends on the world and on the jar,
    and on nothing else the client holds: the facilities cache is written
    but never read, so no result can be stale because of it. *)
Theorem results_do_not_depend_on_cache op w m m' :
  cookies (this m) = cookies (this m') ->
  (perform op w m).1 = (perform op w m').1.
Proof.
  intros Hjar. destruct op; cbn [perform].
  - rewrite !refreshCookies_completion, !refreshCookies_cookies. by rewrite Hjar.
  - destruct m as [[jar cache] made], m' as [[jar' cache'] made'].
    unfold getAllFacilities. catalog_cases; simplify_eq; congruence.
  - rewrite !getFacilityAvailability_run.
    destruct (precondition_independent w m m' Hjar) as [Hr Hc].
    destruct (precondition w m) as [[r|e] m1],
      (precondition w m') as [[r'|e'] m1']; cbn [fst snd] in *;
      try done; first [by rewrite Hc | by simplify_eq].
  - rewrite !getFacilityWeeklyAvailability_run.
    destruct (precondition_independent w m m' Hjar) as [Hr Hc].
    destruct (precondition w m) as [[r|e] m1],
      (precondition w m') as [[r'|e'] m1']; cbn [fst snd] in *;
      try done; first [by rewrite Hc | by simplify_eq].
  - destruct m as [[jar cache] made], m' as [[jar' cache'] made'].
    unfold getFacilitiesByCenter. catalog_cases; simplify_eq; congruence.
  - destruct m as [[jar cache] made], m' as [[jar' cache'] made'].
    unfold getUniqueCenters. catalog_cases; simplify_eq; congruence.
  - destruct m as [[jar cache] made], m' as [[jar' cache'] made'].
    unfold clearCache. catalog_cases; simplify_eq; congruence.
Qed.

Lemma results_do_not_depend_on_cache_witness :
  let w := world_of (smooth_session []) (Document sample_catalog)
             (Throw (Error "connect ECONNREFUSED")) in
  let stale := {| this := {| cookies := []; facilitiesCache := Some [gym] |};
                  calls := [ReadFile facilitiesPath] |} in
  (getAllFacilities w stale).1 = (getAllFacilities w fresh).1.
Proof.
  intros w stale.
  exact (results_do_not_depend_on_cache GetAllFacilities w stale fresh eq_refl).
Defined.

(** X14.  The facilities cache holds the list of the last successful
    [getAllFacilities] since the last [clearCache]: a successful
    [getAllFacilities] stores the list it returns, a failed one leaves the
    cache as it was, [clearCache] empties it whether or not the cache file
    could be removed, and no other operation touches it. *)
Theorem facilities_cache_lifecycle op w m :
  facilitiesCache (this (perform op w m).2)
  = match op with
    | ClearCache => None
    | GetAllFacilities =>
        match loaded (getAllFacilities w m).1 with
        | Some facilities => Some facilities
        | None => facilitiesCache (this m)
        end
    | _ => facilitiesCache (this m)
    end.
Proof.
  destruct op; cbn [perform].
  - apply refreshCookies_facilitiesCache.
  - destruct m as [[jar cache] made].
    unfold getAllFacilities. catalog_cases; by simplify_eq.
  - rewrite getFacilityAvailability_run. unfold precondition.
    destruct (cookies (this m)); [|done].
    rewrite <- (refreshCookies_facilitiesCache w m).
    by destruct (refreshCookies w m) as [[r|e] m1].
  - rewrite getFacilityWeeklyAvailability_run. unfold precondition.
    destruct (cookies (this m)); [|done].
    rewrite <- (refreshCookies_facilitiesCache w m).
    by destruct (refreshCookies w m) as [[r|e] m1].
  - destruct m as [[jar cache] made].
    unfold getFacilitiesByCenter. catalog_cases; by simplify_eq.
  - destruct m as [[jar cache] made].
    unfold getUniqueCenters. catalog_cases; by simplify_eq.
  - destruct m as [[jar cache] made].
    unfold clearCache. catalog_cases; by simplify_eq.
Qed.


(** ** The two siblings side by side *)

Ltac thrown_cases :=
  repeat match goal with
    | |- context [get ?v "message"] => destruct v; cbn [get]
    end.

(** X15.  With cookies in the jar, a query of the TypeScript class and the
    same query of the sibling make the same calls and leave the same
    fields; where the sibling returns the body, the class returns
    [{success: true, data: body}], and where the sibling rejects, the class
    returns a [{success: false, error}]. *)
Theorem queries_wrap_their_siblings facilityId startDate endDate w m :
  cookies (this m) <> [] ->
  wraps (getFacilityAvailability facilityId startDate w m)
        (Legacy.getFacilityAvailability facilityId startDate w m)
  /\ wraps (getFacilityWeeklyAvailability facilityId startDate endDate w m)
           (Legacy.getFacilityWeeklyAvailability facilityId startDate endDate w m).
Proof.
  intros Hjar. destruct m as [[[|[name value] jar] cache] made]; [done|].
  unfold wraps, getFacilityAvailability, Legacy.getFacilityAvailability,
    getFacilityWeeklyAvailability, Legacy.getFacilityWeeklyAvailability,
    Legacy.message_of, succeeded, failed.
  run. cbn [keys fmap list_fmap length].
  case_bool_decide; [done|]. run. cbn [keys fmap list_fmap length].
  case_bool_decide; [|lia]. tidy_headers.
  split; query_cases w; run; thrown_cases; run;
    (split; [reflexivity|]); eauto.
Qed.

Lemma queries_wrap_their_siblings_witness :
  let w := world_of (no_browser (Error "Failed to launch the browser process!"))
             (Document sample_catalog)
             (Normal {| status := 200; statusText := "OK"; data := ok_body |}) in
  let m := {| this := {| cookies := [("JSESSIONID", "abc123")];
                         facilitiesCache := None |};
              calls := [] |} in
  (Legacy.getFacilityAvailability "123" "2024-01-15" w m).1 = Normal ok_body
  /\ wraps (getFacilityAvailability "123" "2024-01-15" w m)
           (Legacy.getFacilityAvailability "123" "2024-01-15" w m).
Proof.
  intros w m. split; [reflexivity|].
  assert (cookies (this m) <> []) as Hjar by discriminate.
  destruct (queries_wrap_their_siblings "123" "2024-01-15" "2024-01-21" w m Hjar)
    as [Hdaily _].
  exact Hdaily.
Defined.

Lemma forEach_tag_array facilities centerName visited :
  forEach_tag facilities centerName = Normal visited ->
  exists elements named, visited = VArr elements named.
Proof.
  destruct facilities as [| | | | |elems named|]; try done. cbn.
  destruct (own named "forEach"); [done|]. run.
  case_match; [|done]. intros [= <-]. eauto.
Qed.

(** X16.  The operations that return a list: in every world the sibling
    returns an array, and the class returns an object whose [data] is that
    array, on success and on failure alike.  [getAllFacilities] differs:
    when the class reports a failure, the sibling rejects with the error
    that the report describes. *)
Theorem list_operations_carry_sibling_list centerName w m :
  (exists elements named,
     (Legacy.getFacilitiesByCenter centerName w m).1
       = Normal (VArr elements named)
     /\ data_of (getFacilitiesByCenter centerName w m).1
        = Some (VArr elements named))
  /\ (exists elements named,
        (Legacy.getUniqueCenters w m).1 = Normal (VArr elements named)
        /\ data_of (getUniqueCenters w m).1 = Some (VArr elements named))
  /\ match (Legacy.getAllFacilities w m).1 with
     | Normal list => (getAllFacilities w m).1 = Normal (succeeded list)
     | Throw e =>
         (getAllFacilities w m).1
         = Normal (failed (described w "Failed to load facilities" e))
     end.
Proof.
  destruct m as [[jar cache] made]. split_and!.
  - unfold getFacilitiesByCenter, Legacy.getFacilitiesByCenter, data_of.
    catalog_cases; simplify_eq;
      try match goal with
        | H : forEach_tag _ _ = Normal _ |- _ =>
            apply forEach_tag_array in H as (? & ? & ->)
        end;
      eexists _, _; (split; [reflexivity|]); cbn; congruence.
  - unfold getUniqueCenters, Legacy.getUniqueCenters, data_of.
    catalog_cases; simplify_eq; eexists _, _; (split; [reflexivity|]);
      cbn; congruence.
  - unfold getAllFacilities, Legacy.getAllFacilities, succeeded, failed,
      described.
    catalog_cases; cbn [fst snd] in *; simplify_eq; congruence.
Qed.

(** ** Grouping by center *)

Section GroupByCenterFacts.
Context {Facility : Type} (center_name : Facility -> string).
Implicit Types (facilities seen : list Facility)
  (groups : list (string * list Facility)).

Let under (c : string) (facilities : list Facility) : list Facility :=
  filter (fun facility => center_name facility = c) facilities.

Lemma under_snoc c seen facility :
  under c (seen ++ [facility])
  = under c seen ++ (if decide (center_name facility = c) then [facility] else []).
Proof.
  unfold under. rewrite filter_app, filter_cons, filter_nil.
  by destruct (decide (center_name facility = c)).
Qed.

Lemma group_step_grouped groups seen facility :
  center_name facility ∉ Object_prototype_names ->
  NoDup (keys groups) ->
  (forall c, own groups c = nonempty (under c seen)) ->
  exists groups',
    group_step center_name groups facility = Normal groups'
    /\ NoDup (keys groups')
    /\ forall c, own groups' c = nonempty (under c (seen ++ [facility])).
Proof.
  intros Hname Hnd Hown. unfold group_step.
  pose proof (Hown (center_name facility)) as Hhere.
  destruct (own groups (center_name facility)) as [held|] eqn:Hheld.
  - eexists. split_and!; [done|by apply NoDup_keys_assign|].
    intros c. rewrite under_snoc.
    destruct (decide (center_name facility = c)) as [<-|Hc].
    + rewrite own_assign.
      destruct (under (center_name facility) seen); [done|].
      cbn in Hhere. injection Hhere as ->. done.
    + rewrite own_assign_ne, app_nil_r by done. apply Hown.
  - rewrite bool_decide_false by done.
    eexists. split_and!; [done|by apply NoDup_keys_assign|].
    intros c. rewrite under_snoc.
    destruct (decide (center_name facility = c)) as [<-|Hc].
    + rewrite own_assign.
      by destruct (under (center_name facility) seen).
    + rewrite own_assign_ne, app_nil_r by done. apply Hown.
Qed.

Lemma for_each_grouped facilities groups seen :
  Forall (fun facility => center_name facility ∉ Object_prototype_names)
    facilities ->
  NoDup (keys groups) ->
  (forall c, own groups c = nonempty (under c seen)) ->
  exists groups',
    for_each (group_step center_name) groups facilities = Normal groups'
    /\ NoDup (keys groups')
    /\ forall c, own groups' c = nonempty (under c (seen ++ facilities)).
Proof.
  intros Hnames. revert groups seen.
  induction Hnames as [|facility facilities Hname _ IH];
    intros groups seen Hnd Hown.
  - exists groups. rewrite app_nil_r. done.
  - destruct (group_step_grouped groups seen facility Hname Hnd Hown)
      as (groups1 & Hstep & Hnd1 & Hown1).
    destruct (IH groups1 (seen ++ [facility]) Hnd1 Hown1)
      as (groups' & Hrest & Hnd' & Hown').
    exists groups'. cbn [for_each]. rewrite Hstep. run.
    split_and!; [done|done|].
    intros c. rewrite Hown'. by rewrite <- app_assoc.
Qed.

(** X17.  When no facility has a center name that an object inherits,
    [groupByCenter] returns one group for each center name that occurs and
    no other: the group under a name holds exactly the facilities of that
    name, in their order; so every facility is in exactly one group. *)
Theorem groupByCenter_partitions facilities :
  Forall (fun facility => center_name facility ∉ Object_prototype_names)
    facilities ->
  exists groups,
    groupByCenter center_name facilities = Normal groups
    /\ NoDup (keys groups)
    /\ forall c,
         own groups c
         = nonempty (filter (fun facility => center_name facility = c)
                       facilities).
Proof.
  intros Hnames.
  destruct (for_each_grouped facilities [] [] Hnames) as (groups & H1 & H2 & H3);
    [constructor|done|].
  exists groups. done.
Qed.

Lemma for_each_group_step_throws facilities groups :
  (forall k, k ∈ Object_prototype_names -> own groups k = None) ->
  Exists (fun facility => center_name facility ∈ Object_prototype_names)
    facilities ->
  for_each (group_step center_name) groups facilities
  = Throw (TypeError (NotAFunction "push")).
Proof.
  intros Hfree Hbad. revert groups Hfree.
  induction facilities as [|facility facilities IH]; intros groups Hfree.
  - by apply Exists_nil in Hbad.
  - cbn [for_each].
    destruct (decide (center_name facility ∈ Object_prototype_names))
      as [Hin|Hout].
    + assert (group_step center_name groups facility
              = Throw (TypeError (NotAFunction "push"))) as ->; [|done].
      unfold group_step. by rewrite (Hfree _ Hin), bool_decide_true.
    + apply Exists_cons in Hbad as [?|Hbad]; [done|].
      assert (exists v, group_step center_name groups facility
                        = Normal (assign groups (center_name facility) v))
        as [v ->].
      { unfold group_step. destruct (own groups (center_name facility)); eauto.
        rewrite bool_decide_false by done. eauto. }
      run. apply IH; [done|].
      intros k Hk. rewrite own_assign_ne; [by apply Hfree|].
      intros ->. done.
Qed.

(** X18.  A facility whose center name is one that every object inherits,
    such as "constructor" or "toString", makes [groupByCenter] throw: the
    inherited member is taken for the group and has no [push]. *)
Theorem groupByCenter_throws_on_inherited_name facilities :
  Exists (fun facility => center_name facility ∈ Object_prototype_names)
    facilities ->
  groupByCenter center_name facilities = Throw (TypeError (NotAFunction "push")).
Proof. by apply for_each_group_step_throws. Qed.

End GroupByCenterFacts.

Lemma groupByCenter_partitions_witness :
  let facilities := [("Central Library", "201"); ("Burnhamthorpe CC", "101");
                     ("Central Library", "202")] in
  exists groups,
    groupByCenter fst facilities = Normal groups
    /\ own groups "Central Library"
       = Some [("Central Library", "201"); ("Central Library", "202")]
    /\ own groups "Meadowvale CC" = None.
Proof.
  intros facilities.
  assert (Forall (fun facility : string * string =>
                    facility.1 ∉ Object_prototype_names) facilities) as Hnames.
  { repeat constructor; apply (bool_decide_unpack _); vm_compute; exact I. }
  destruct (groupByCenter_partitions fst facilities Hnames)
    as (groups & Hrun & _ & Hown).
  exists groups. split_and!.
  - exact Hrun.
  - exact (Hown "Central Library").
  - exact (Hown "Meadowvale CC").
Defined.

Lemma groupByCenter_throws_on_inherited_name_witness :
  groupByCenter fst [("Central Library", "201"); ("constructor", "999")]
  = Throw (TypeError (NotAFunction "push")).
Proof.
  apply groupByCenter_throws_on_inherited_name.
  apply Exists_cons_tl, Exists_cons_hd.
  apply (bool_decide_unpack _). vm_compute. exact I.
Defined.

(** ** Remaining operations *)

(** X19.  [clearCache] cannot fail: it empties the cache, asks once for
    the cache file to be removed, and returns normally whether or not the
    removal succeeded; the jar is not touched.  The sibling does the
    same. *)
Theorem clearCache_swallows_unlink_failure w m :
  clearCache w m
  = (Normal VUndefined,
     {| this := {| cookies := cookies (this m); facilitiesCache := None |};
        calls := calls m ++ [Unlink facilitiesCacheFile] |})
  /\ Legacy.clearCache w m = clearCache w m.
Proof.
  destruct m as [[jar cache] made]. split; [|reflexivity].
  unfold clearCache. run. by destruct (unlink w) as [[]|?].
Qed.

(** X20.  The weekly query checks nothing of its arguments: when it is not
    cut short it sends one request whose path ends in the facility id as
    given and whose [start_date] and [end_date] are the two dates as
    given, in that order, be they empty, malformed or reversed. *)
Theorem getFacilityWeeklyAvailability_forwards_arguments
    facilityId startDate endDate w m :
  cut_short (cookies (this m)) (browser w) = false ->
  exists config,
    requests (calls (getFacilityWeeklyAvailability facilityId startDate endDate
                       w m).2)
    = requests (calls m) ++ [config]
    /\ url config
       = baseUrl +:+ "/rest/reservation/resource/availability/daily/"
         +:+ facilityId
    /\ own (params config) "start_date" = Some startDate
    /\ own (params config) "end_date" = Some endDate
    /\ own (headers config) "Referer"
       = Some (baseUrl +:+ "/reservation/landing/search/detail/" +:+ facilityId).
Proof.
  intros Hcut. eexists.
  rewrite getFacilityWeeklyAvailability_requests, Hcut.
  split_and!; reflexivity.
Qed.

Lemma getFacilityWeeklyAvailability_forwards_arguments_witness :
  let w := world_of (smooth_session [session_cookie]) (Document sample_catalog)
             (Throw (Error "Request failed with status code 400")) in
  exists config,
    requests (calls (getFacilityWeeklyAvailability "123" "2024-01-21" "2024-01-15"
                       w fresh).2)
    = [config]
    /\ own (params config) "start_date" = Some "2024-01-21"
    /\ own (params config) "end_date" = Some "2024-01-15".
Proof.
  intros w.
  destruct (getFacilityWeeklyAvailability_forwards_arguments
              "123" "2024-01-21" "2024-01-15" w fresh eq_refl)
    as (config & Hsent & _ & Hstart & Hend & _).
  exists config. split_and!; [exact Hsent | exact Hstart | exact Hend].
Defined.
